(** * The chat relay endpoint (src/app/api/chat/route.ts)

    A shallow embedding of the [POST] handler: request validation, prompt
    composition, the loop that translates agent runtime messages into
    server-sent events, and the telemetry it emits on the way.

    Strings are byte strings holding the UTF-8 form of the JavaScript
    strings; counters and clock readings are integers. The handler's
    effects (telemetry calls, clock reads, chunks enqueued on the stream
    controller, the two local counters) are threaded through a state
    monad with exceptions, so that [try]/[catch] reads as in the source.

    The agent runtime and the telemetry backend are outside the file: a
    run of the runtime is the finite list of messages it yields and the
    way its iteration ends, and telemetry is the list of calls received.
    Writes to the stream controller are taken to succeed, so a stream is
    the list of chunks enqueued and whether it was closed. *)

From Stdlib Require Import List String Ascii ZArith Lia Bool DecimalString.
Import ListNotations.
Local Open Scope string_scope.
Local Open Scope Z_scope.

(** ** JavaScript strings and JSON text *)

(** The line feed written [\n] in the source's string literals. *)
Definition nl : string := String "010"%char EmptyString.

(** The double quote character. *)
Definition dq : string := String "034"%char EmptyString.

(** UTF-16 code units that a UTF-8 byte stands for: a continuation byte
    adds none, the lead byte of a four-byte sequence adds a surrogate
    pair. *)
Definition utf16_units (c : ascii) : Z :=
  let n := Z.of_N (N_of_ascii c) in
  if n <? 128 then 1 else if n <? 192 then 0 else if n <? 240 then 1 else 2.

(** [s.length] of a JavaScript string. *)
Fixpoint js_length (s : string) : Z :=
  match s with
  | EmptyString => 0
  | String c rest => utf16_units c + js_length rest
  end.

(** A JavaScript number that the handler passes on without computing
    with it, held in the decimal form in which JavaScript prints it: an
    integer part, a fraction and an exponent, as in [90], [1.5] and
    [1e+21]. Every finite number has one such form; the other numbers
    are [Infinity], of either sign, and [NaN]. *)
Inductive number : Type :=
| finite (d : Decimal.decimal)
| Infinity
| NaN.

(** A whole number. *)
Definition whole (n : Z) : number := finite (Decimal.Decimal (Z.to_int n) Decimal.Nil).

Fixpoint all_zero (d : Decimal.uint) : bool :=
  match d with
  | Decimal.Nil => true
  | Decimal.D0 d' => all_zero d'
  | _ => false
  end.

(** A number is falsy when it is zero or [NaN]. *)
Definition number_truthy (n : number) : bool :=
  match n with
  | finite (Decimal.Decimal (Decimal.Pos i | Decimal.Neg i) f)
  | finite (Decimal.DecimalExp (Decimal.Pos i | Decimal.Neg i) f _) =>
      negb (all_zero i && all_zero f)
  | Infinity => true
  | NaN => false
  end.

Module JSON.

(** The values the handler serialises: strings and numbers, inside flat
    object literals. *)
Inductive value : Type :=
| j_string (s : string)
| j_number (n : number).

Definition hex_digit (n : N) : ascii :=
  ascii_of_N (if (n <? 10)%N then 48 + n else 87 + n)%N.

(** One character of a string under JSON's QuoteJSONString. *)
Definition escape_char (c : ascii) : string :=
  let n := N_of_ascii c in
  if (n =? 8)%N then "\b"
  else if (n =? 9)%N then "\t"
  else if (n =? 10)%N then "\n"
  else if (n =? 12)%N then "\f"
  else if (n =? 13)%N then "\r"
  else if (n =? 34)%N then String "\" dq
  else if (n =? 92)%N then "\\"
  else if (n <? 32)%N then
    "\u00" ++ String (hex_digit (n / 16)) (String (hex_digit (n mod 16)) EmptyString)
  else String c EmptyString.

Fixpoint escape (s : string) : string :=
  match s with
  | EmptyString => EmptyString
  | String c rest => escape_char c ++ escape rest
  end.

Definition quote (s : string) : string := dq ++ escape s ++ dq.

Definition fraction_text (f : Decimal.uint) : string :=
  match f with
  | Decimal.Nil => ""
  | _ => "." ++ NilEmpty.string_of_uint f
  end.

Definition exponent_text (e : Decimal.signed_int) : string :=
  match e with
  | Decimal.Pos u => "e+" ++ NilZero.string_of_uint u
  | Decimal.Neg u => "e-" ++ NilZero.string_of_uint u
  end.

(** The text of a number in JSON: its decimal form, the exponent with
    its sign; [null] for a number that is not finite. *)
Definition number_text (n : number) : string :=
  match n with
  | finite (Decimal.Decimal i f) => NilZero.string_of_int i ++ fraction_text f
  | finite (Decimal.DecimalExp i f e) =>
      NilZero.string_of_int i ++ fraction_text f ++ exponent_text e
  | Infinity | NaN => "null"
  end.

Definition value_text (v : value) : string :=
  match v with
  | j_string s => quote s
  | j_number n => number_text n
  end.

Definition member (kv : string * value) : string :=
  quote (fst kv) ++ ":" ++ value_text (snd kv).

(** [JSON.stringify] of an object literal, keys in the order written. *)
Definition stringify (fields : list (string * value)) : string :=
  "{" ++ String.concat "," (map member fields) ++ "}".

End JSON.

(** ** Data of the request *)

Inductive Role : Type := user | assistant.

Definition Role_eqb (a b : Role) : bool :=
  match a, b with
  | user, user | assistant, assistant => true
  | _, _ => false
  end.

(** interface MessageInput *)
Record MessageInput : Type := {
  role : Role;
  content : string
}.

(** What the destructured [messages] binding can hold. Of an object that
    is not an array the handler reads nothing but its [length] property
    ([js_undefined] when it has none). Array elements are taken at their
    declared type [MessageInput]: an array holding anything else (a
    [null], a turn without [content]) is outside this type, and so are
    the TypeErrors it raises at lines 52 and 65. *)
Inductive js_value : Type :=
| js_undefined
| js_null
| js_boolean (b : bool)
| js_number (n : number)
| js_string (s : string)
| js_object (length : js_value)
| js_array (elements : list MessageInput).

(** ToBoolean: what [!messages] negates. *)
Definition truthy (v : js_value) : bool :=
  match v with
  | js_undefined | js_null => false
  | js_boolean b => b
  | js_number n => number_truthy n
  | js_string s => negb (String.eqb s "")
  | js_object _ | js_array _ => true
  end.

Definition Array_isArray (v : js_value) : bool :=
  match v with
  | js_array _ => true
  | _ => false
  end.

(** The value of an attribute in a telemetry call. *)
Inductive attribute : Type :=
| a_string (s : string)
| a_number (n : Z)
| a_undefined
| a_value (v : js_value).

(** [messages?.length || 0], as the attribute logged: the length of a
    string or of an array, the [length] property of another object when
    it is truthy, and 0 otherwise. *)
Definition length_or_0 (v : js_value) : attribute :=
  match v with
  | js_string s => a_number (js_length s)
  | js_array l => a_number (Z.of_nat (List.length l))
  | js_object length => if truthy length then a_value length else a_number 0
  | _ => a_number 0
  end.

(** The elements of a value already known to be an array. *)
Definition elements_of (v : js_value) : list MessageInput :=
  match v with
  | js_array l => l
  | _ => []
  end.

(** A thrown value, as the catch clauses inspect it:
    [error instanceof Error], [error.message], [error.stack]. *)
Inductive thrown : Type :=
| Error_object (message : string) (stack : option string)
| not_an_Error.

(** The outcome of line 29, [const { messages } = await request.json()]:
    parsing or destructuring throws, or [messages] is bound. *)
Inductive Request : Type :=
| json_throws (error : thrown)
| json_gives (messages : js_value).

(** ** Messages of the agent runtime

    The handler reads them structurally: a [type] tag, and fields it
    tests for before use. An absent or nullish field is [None]. *)

Record Delta : Type := {
  delta_type : string;
  text : string
}.

Record StreamEvent : Type := {
  event_type : string;
  delta : option Delta
}.

Record ContentBlock : Type := {
  block_type : string;
  name : string
}.

Record SDKMessage : Type := {
  type : string;
  event : option StreamEvent;
  message_content : option (list ContentBlock);
  tool_name : string;
  elapsed_time_seconds : number;
  subtype : string
}.

(** The options object of the [query] call (the working directory, read
    from the process, is left to the runtime). *)
Record Options : Type := {
  maxTurns : Z;
  tools_preset : string;
  permissionMode : string;
  allowDangerouslySkipPermissions : bool;
  includePartialMessages : bool
}.

(** One run of the agent runtime's asynchronous iterator: the messages it
    yields, then either exhaustion or a thrown value. *)
Record AgentRun : Type := {
  yields : list SDKMessage;
  raises : option thrown
}.

(** ** Telemetry and the handler's state *)

Inductive level : Type := info | warn | error.

Inductive signal : Type :=
| log (l : level) (message : string) (attributes : list (string * attribute))
| count (metric : string) (value : Z) (attributes : list (string * attribute))
| distribution (metric : string) (value : Z) (unit_name : string)
    (attributes : list (string * attribute)).

Record world : Type := mk_world {
  sink : list signal;
  clock : nat -> Z;
  reads : nat;
  toolsUsedCount : Z;
  textChunksCount : Z;
  queue : list string;
  closed : bool
}.

Definition boot (clock : nat -> Z) : world :=
  mk_world [] clock 0%nat 0 0 [] false.

Inductive outcome (A : Type) : Type :=
| returned (a : A)
| threw (e : thrown).
Arguments returned {A} a.
Arguments threw {A} e.

Definition M (A : Type) : Type := world -> outcome A * world.

Definition ret {A} (a : A) : M A := fun w => (returned a, w).

Definition bind {A B} (c : M A) (k : A -> M B) : M B :=
  fun w =>
    match c w with
    | (returned a, w') => k a w'
    | (threw e, w') => (threw e, w')
    end.

Definition throw {A} (e : thrown) : M A := fun w => (threw e, w).

Definition try_catch {A} (body : M A) (handler : thrown -> M A) : M A :=
  fun w =>
    match body w with
    | (returned a, w') => (returned a, w')
    | (threw e, w') => handler e w'
    end.

Notation "x <- c ;; k" := (bind c (fun x => k))
  (at level 61, c at next level, right associativity).
Notation "c ;; k" := (bind c (fun _ => k))
  (at level 61, right associativity).

Definition when (b : bool) (c : M unit) : M unit := if b then c else ret tt.

Definition emit (s : signal) : M unit :=
  fun w =>
    (returned tt,
     mk_world (sink w ++ [s]) (clock w) (reads w)
       (toolsUsedCount w) (textChunksCount w) (queue w) (closed w)).

(** [performance.now()]: the next reading of the clock. *)
Definition performance_now : M Z :=
  fun w =>
    (returned (clock w (reads w)),
     mk_world (sink w) (clock w) (S (reads w))
       (toolsUsedCount w) (textChunksCount w) (queue w) (closed w)).

Definition set_toolsUsedCount (n : Z) : M unit :=
  fun w =>
    (returned tt,
     mk_world (sink w) (clock w) (reads w) n (textChunksCount w) (queue w) (closed w)).

Definition set_textChunksCount (n : Z) : M unit :=
  fun w =>
    (returned tt,
     mk_world (sink w) (clock w) (reads w) (toolsUsedCount w) n (queue w) (closed w)).

Definition get_toolsUsedCount : M Z := fun w => (returned (toolsUsedCount w), w).
Definition get_textChunksCount : M Z := fun w => (returned (textChunksCount w), w).

(** [controller.enqueue(encoder.encode(chunk))] *)
Definition enqueue (chunk : string) : M unit :=
  fun w =>
    (returned tt,
     mk_world (sink w) (clock w) (reads w)
       (toolsUsedCount w) (textChunksCount w) (queue w ++ [chunk]) (closed w)).

(** [controller.close()] *)
Definition close : M unit :=
  fun w =>
    (returned tt,
     mk_world (sink w) (clock w) (reads w)
       (toolsUsedCount w) (textChunksCount w) (queue w) true).

Module Sentry.
Definition logger_info (message : string) (attrs : list (string * attribute)) : M unit :=
  emit (log info message attrs).
Definition logger_warn (message : string) (attrs : list (string * attribute)) : M unit :=
  emit (log warn message attrs).
Definition logger_error (message : string) (attrs : list (string * attribute)) : M unit :=
  emit (log error message attrs).
Definition metrics_count (metric : string) (value : Z)
    (attrs : list (string * attribute)) : M unit :=
  emit (count metric value attrs).
Definition metrics_distribution (metric : string) (value : Z) (unit_name : string)
    (attrs : list (string * attribute)) : M unit :=
  emit (distribution metric value unit_name attrs).
End Sentry.

(** ** The handler *)

(** Strict equality of two strings. *)
Notation "a === b" := (String.eqb a b) (at level 70, no associativity).

Definition SYSTEM_PROMPT : string :=
  String.concat nl
    [ "You are a helpful personal assistant designed to help with general research, questions, and tasks.";
      "";
      "Your role is to:";
      "- Answer questions on any topic accurately and thoroughly";
      "- Help with research by searching the web for current information";
      "- Assist with writing, editing, and brainstorming";
      "- Provide explanations and summaries of complex topics";
      "- Help solve problems and think through decisions";
      "";
      "Guidelines:";
      "- Be friendly, clear, and conversational";
      "- Use web search when you need current information, facts you're unsure about, or real-time data";
      "- Keep responses concise but complete - expand when the topic warrants depth";
      "- Use markdown formatting when it helps readability (bullet points, code blocks, etc.)";
      "- Be honest when you don't know something and offer to search for answers" ].

(** [Array.prototype.pop] on a fresh array: its last element, if any. *)
Fixpoint pop {A : Type} (l : list A) : option A :=
  match l with
  | [] => None
  | [x] => Some x
  | _ :: rest => pop rest
  end.

(** Line 52: [messages.filter(m => m.role === 'user').pop()] *)
Definition lastUserMessage (messages : list MessageInput) : option MessageInput :=
  pop (filter (fun m => Role_eqb (role m) user) messages).

(** Lines 76-79. [slice(0, -1)] drops the last element. *)
Definition conversationContext (messages : list MessageInput) : string :=
  String.concat (nl ++ nl)
    (map (fun m => (match role m with user => "User" | assistant => "Assistant" end)
                   ++ ": " ++ content m)
         (removelast messages)).

(** Lines 81-83. A string is truthy when it is not empty. *)
Definition fullPrompt (messages : list MessageInput) (lastUserMessage : MessageInput)
    : string :=
  let conversationContext := conversationContext messages in
  if negb (String.eqb conversationContext "")
  then SYSTEM_PROMPT ++ nl ++ nl ++ "Previous conversation:" ++ nl ++ conversationContext
       ++ nl ++ nl ++ "User: " ++ content lastUserMessage
  else SYSTEM_PROMPT ++ nl ++ nl ++ "User: " ++ content lastUserMessage.

(** Lines 99-110. *)
Definition query_options : Options :=
  {| maxTurns := 10;
     tools_preset := "claude_code";
     permissionMode := "bypassPermissions";
     allowDangerouslySkipPermissions := true;
     includePartialMessages := true |}.

(** A chunk of the event stream: [data: <payload>\n\n]. *)
Definition data_line (payload : string) : string := "data: " ++ payload ++ nl ++ nl.

(** [for (const x of xs) body] *)
Fixpoint for_of {A : Type} (xs : list A) (body : A -> M unit) : M unit :=
  match xs with
  | [] => ret tt
  | x :: rest => body x ;; for_of rest body
  end.

(** [for await (const message of run) body]: the body runs on each
    message yielded; a value the iterator throws propagates. *)
Fixpoint for_await_messages (yielded : list SDKMessage) (raised : option thrown)
    (body : SDKMessage -> M unit) : M unit :=
  match yielded with
  | [] => match raised with
          | None => ret tt
          | Some e => throw e
          end
  | message :: rest => body message ;; for_await_messages rest raised body
  end.

Definition for_await (run : AgentRun) (body : SDKMessage -> M unit) : M unit :=
  for_await_messages (yields run) (raises run) body.

(** Lines 112-191: the body of the loop over the agent's messages. *)
Definition on_message (requestStartTime streamStartTime : Z) (message : SDKMessage)
    : M unit :=
  (* Handle streaming text deltas (partial messages) *)
  (if type message === "stream_event" then
     match event message with
     | Some event =>
         match delta event with
         | Some delta =>
             when ((event_type event === "content_block_delta")
                   && (delta_type delta === "text_delta"))
               (n <- get_textChunksCount ;;
                set_textChunksCount (n + 1) ;;
                enqueue (data_line (JSON.stringify
                  [("type", JSON.j_string "text_delta");
                   ("text", JSON.j_string (text delta))])))
         | None => ret tt
         end
     | None => ret tt
     end
   else ret tt) ;;
  (* Send tool start events from assistant messages *)
  (if type message === "assistant" then
     match message_content message with
     | Some content =>
         for_of content (fun block =>
           when (block_type block === "tool_use")
             (n <- get_toolsUsedCount ;;
              set_toolsUsedCount (n + 1) ;;
              Sentry.logger_info "Tool invoked" [("tool", a_string (name block))] ;;
              Sentry.metrics_count "chat.tool.invocation" 1
                [("tool_name", a_string (name block))] ;;
              enqueue (data_line (JSON.stringify
                [("type", JSON.j_string "tool_start");
                 ("tool", JSON.j_string (name block))]))))
     | None => ret tt
     end
   else ret tt) ;;
  (* Send tool progress updates *)
  when (type message === "tool_progress")
    (enqueue (data_line (JSON.stringify
       [("type", JSON.j_string "tool_progress");
        ("tool", JSON.j_string (tool_name message));
        ("elapsed", JSON.j_number (elapsed_time_seconds message))]))) ;;
  (* Signal completion *)
  when ((type message === "result") && (subtype message === "success"))
    (now1 <- performance_now ;;
     let totalDuration := now1 - requestStartTime in
     now2 <- performance_now ;;
     let streamDuration := now2 - streamStartTime in
     toolsUsed <- get_toolsUsedCount ;;
     textChunks <- get_textChunksCount ;;
     Sentry.logger_info "Chat request completed successfully"
       [("totalDuration", a_number totalDuration);
        ("streamDuration", a_number streamDuration);
        ("toolsUsed", a_number toolsUsed);
        ("textChunks", a_number textChunks)] ;;
     Sentry.metrics_count "chat.api.success" 1 [] ;;
     Sentry.metrics_distribution "chat.api.duration" totalDuration "millisecond"
       [("status", a_string "success")] ;;
     Sentry.metrics_distribution "chat.stream.chunks" textChunks "none" [] ;;
     Sentry.metrics_distribution "chat.tools.count" toolsUsed "none" [] ;;
     enqueue (data_line (JSON.stringify [("type", JSON.j_string "done")]))) ;;
  (* Handle errors *)
  when ((type message === "result") && negb (subtype message === "success"))
    (Sentry.logger_error "Chat query did not complete successfully"
       [("subtype", a_string (subtype message))] ;;
     Sentry.metrics_count "chat.api.failure" 1
       [("subtype", a_string (subtype message))] ;;
     enqueue (data_line (JSON.stringify
       [("type", JSON.j_string "error");
        ("message", JSON.j_string "Query did not complete successfully")]))).

(** Lines 94-211: the [start] callback of the ReadableStream. *)
Definition start (query : string -> Options -> AgentRun) (fullPrompt : string)
    (requestStartTime streamStartTime : Z) : M unit :=
  try_catch
    (for_await (query fullPrompt query_options)
       (on_message requestStartTime streamStartTime) ;;
     enqueue ("data: [DONE]" ++ nl ++ nl) ;;
     close)
    (fun error =>
       let streamError :=
         match error with
         | Error_object message _ => message
         | not_an_Error => "Unknown error"
         end in
       toolsUsed <- get_toolsUsedCount ;;
       textChunks <- get_textChunksCount ;;
       Sentry.logger_error "Stream processing error"
         [("error", a_string streamError);
          ("toolsUsed", a_number toolsUsed);
          ("textChunks", a_number textChunks)] ;;
       Sentry.metrics_count "chat.stream.error" 1
         [("error_type", a_string "stream_processing")] ;;
       enqueue (data_line (JSON.stringify
         [("type", JSON.j_string "error");
          ("message", JSON.j_string "Stream error occurred")])) ;;
       close).

Inductive body : Type :=
| body_text (s : string)
| body_stream.

Record Response : Type := {
  response_body : body;
  status : Z;
  headers : list (string * string)
}.

Definition json_headers : list (string * string) :=
  [("Content-Type", "application/json")].

Definition stream_headers : list (string * string) :=
  [("Content-Type", "text/event-stream");
   ("Cache-Control", "no-cache");
   ("Connection", "keep-alive")].

(** Line 29. *)
Definition request_json (request : Request) : M js_value :=
  match request with
  | json_throws e => throw e
  | json_gives messages => ret messages
  end.

(** Lines 25-242. The agent runtime is the handler's second argument.
    The [start] callback is run to its end before the response is
    returned: the handler does nothing in between, so the order of the
    telemetry and of the chunks is the one of the source. *)
Definition POST (request : Request) (query : string -> Options -> AgentRun)
    : M Response :=
  requestStartTime <- performance_now ;;
  try_catch
    (messages <- request_json request ;;
     Sentry.metrics_count "chat.api.request" 1 [("endpoint", a_string "/api/chat")] ;;
     Sentry.logger_info "Chat API request received"
       [("messageCount", length_or_0 messages)] ;;
     if negb (truthy messages) || negb (Array_isArray messages) then
       Sentry.logger_warn "Invalid request: messages array missing or invalid" [] ;;
       Sentry.metrics_count "chat.api.error" 1
         [("error_type", a_string "invalid_messages")] ;;
       ret {| response_body :=
                body_text (JSON.stringify
                  [("error", JSON.j_string "Messages array is required")]);
              status := 400;
              headers := json_headers |}
     else
       let messages := elements_of messages in
       (* Get the last user message *)
       match lastUserMessage messages with
       | None =>
           Sentry.logger_warn "Invalid request: no user message found" [] ;;
           Sentry.metrics_count "chat.api.error" 1
             [("error_type", a_string "no_user_message")] ;;
           ret {| response_body :=
                    body_text (JSON.stringify
                      [("error", JSON.j_string "No user message found")]);
                  status := 400;
                  headers := json_headers |}
       | Some lastUserMessage =>
           Sentry.metrics_distribution "chat.message.length"
             (js_length (content lastUserMessage)) "none"
             [("type", a_string "user_message")] ;;
           Sentry.logger_info "Processing chat request"
             [("conversationLength", a_number (Z.of_nat (List.length messages)));
              ("lastMessageLength", a_number (js_length (content lastUserMessage)))] ;;
           let fullPrompt := fullPrompt messages lastUserMessage in
           set_toolsUsedCount 0 ;;
           set_textChunksCount 0 ;;
           streamStartTime <- performance_now ;;
           Sentry.logger_info "Starting Claude Agent SDK query" [] ;;
           start query fullPrompt requestStartTime streamStartTime ;;
           ret {| response_body := body_stream;
                  status := 200;
                  headers := stream_headers |}
       end)
    (fun error =>
       let errorMessage :=
         match error with
         | Error_object message _ => message
         | not_an_Error => "Unknown error"
         end in
       Sentry.logger_error "Chat API error"
         [("error", a_string errorMessage);
          ("stack", match error with
                    | Error_object _ (Some stack) => a_string stack
                    | _ => a_undefined
                    end)] ;;
       Sentry.metrics_count "chat.api.error" 1 [("error_type", a_string "api_error")] ;;
       now <- performance_now ;;
       let totalDuration := now - requestStartTime in
       Sentry.metrics_distribution "chat.api.duration" totalDuration "millisecond"
         [("status", a_string "error")] ;;
       ret {| response_body :=
                body_text (JSON.stringify
                  [("error", JSON.j_string
                     "Failed to process chat request. Check server logs for details.")]);
              status := 500;
              headers := json_headers |}).

(** ** The wire protocol and the translation table, as specified

    The definitions of this part follow the specification's data model
    (section 3) and translation table (section 4.4); the theorems below
    compare the handler with them. *)

Module Wire.

(** Outbound wire events. *)
Inductive event : Type :=
| text_delta (text : string)
| tool_start (tool : string)
| tool_progress (tool : string) (elapsed : number)
| done
| error (message : string).

(** A JSON string literal of characters that need no escape. *)
Definition lit (s : string) : string := dq ++ s ++ dq.

(** The line sent for an event: [data: <JSON>\n\n]. *)
Definition encode (e : event) : string :=
  match e with
  | text_delta text =>
      "data: {" ++ lit "type" ++ ":" ++ lit "text_delta" ++ ","
        ++ lit "text" ++ ":" ++ JSON.quote text ++ "}" ++ nl ++ nl
  | tool_start tool =>
      "data: {" ++ lit "type" ++ ":" ++ lit "tool_start" ++ ","
        ++ lit "tool" ++ ":" ++ JSON.quote tool ++ "}" ++ nl ++ nl
  | tool_progress tool elapsed =>
      "data: {" ++ lit "type" ++ ":" ++ lit "tool_progress" ++ ","
        ++ lit "tool" ++ ":" ++ JSON.quote tool ++ ","
        ++ lit "elapsed" ++ ":" ++ JSON.number_text elapsed ++ "}" ++ nl ++ nl
  | done =>
      "data: {" ++ lit "type" ++ ":" ++ lit "done" ++ "}" ++ nl ++ nl
  | error message =>
      "data: {" ++ lit "type" ++ ":" ++ lit "error" ++ ","
        ++ lit "message" ++ ":" ++ JSON.quote message ++ "}" ++ nl ++ nl
  end.

(** The sentinel that ends a stream. *)
Definition DONE : string := "data: [DONE]" ++ nl ++ nl.

(** A chunk is an event of type [ty] when it opens with that type tag. *)
Definition has_type (ty chunk : string) : bool :=
  prefix ("data: {" ++ lit "type" ++ ":" ++ lit ty) chunk.

Definition is_text_delta (e : event) : bool :=
  match e with text_delta _ => true | _ => false end.

Definition is_tool_start (e : event) : bool :=
  match e with tool_start _ => true | _ => false end.

Definition is_done (e : event) : bool :=
  match e with done => true | _ => false end.

Definition is_error (e : event) : bool :=
  match e with error _ => true | _ => false end.

(** The two generic messages a caller can see inside a stream. *)
Definition query_failed : event := error "Query did not complete successfully".
Definition stream_failed : event := error "Stream error occurred".

End Wire.

(** The text of a streaming text delta, when the message is one. *)
Definition streaming_text_delta (m : SDKMessage) : option string :=
  if type m === "stream_event" then
    match event m with
    | Some e =>
        match delta e with
        | Some d =>
            if (event_type e === "content_block_delta") && (delta_type d === "text_delta")
            then Some (text d) else None
        | None => None
        end
    | None => None
    end
  else None.

(** The names of the tool-invocation content blocks of an assistant
    message, in order; none for any other message. *)
Definition tool_invocations (m : SDKMessage) : list string :=
  if type m === "assistant" then
    match message_content m with
    | Some blocks => map name (filter (fun b => block_type b === "tool_use") blocks)
    | None => []
    end
  else [].

Definition tool_progress_notice (m : SDKMessage) : bool := type m === "tool_progress".

Definition success_result (m : SDKMessage) : bool :=
  (type m === "result") && (subtype m === "success").

Definition failure_result (m : SDKMessage) : bool :=
  (type m === "result") && negb (subtype m === "success").

(** The translation table of section 4.4: the outbound events of one
    input message. *)
Definition translate (m : SDKMessage) : list Wire.event :=
  (match streaming_text_delta m with
   | Some t => [Wire.text_delta t]
   | None => []
   end)
  ++ map Wire.tool_start (tool_invocations m)
  ++ (if tool_progress_notice m
      then [Wire.tool_progress (tool_name m) (elapsed_time_seconds m)] else [])
  ++ (if success_result m then [Wire.done] else [])
  ++ (if failure_result m then [Wire.query_failed] else []).

Definition translate_all (ms : list SDKMessage) : list Wire.event :=
  flat_map translate ms.

(** The telemetry of the table's rows. *)
Definition tool_signals (tool : string) : list signal :=
  [ log info "Tool invoked" [("tool", a_string tool)];
    count "chat.tool.invocation" 1 [("tool_name", a_string tool)] ].

Definition completion_signals (totalDuration streamDuration toolsUsed textChunks : Z)
    : list signal :=
  [ log info "Chat request completed successfully"
      [("totalDuration", a_number totalDuration);
       ("streamDuration", a_number streamDuration);
       ("toolsUsed", a_number toolsUsed);
       ("textChunks", a_number textChunks)];
    count "chat.api.success" 1 [];
    distribution "chat.api.duration" totalDuration "millisecond"
      [("status", a_string "success")];
    distribution "chat.stream.chunks" textChunks "none" [];
    distribution "chat.tools.count" toolsUsed "none" [] ].

Definition failure_signals (subtype : string) : list signal :=
  [ log error "Chat query did not complete successfully" [("subtype", a_string subtype)];
    count "chat.api.failure" 1 [("subtype", a_string subtype)] ].

Definition stream_error_signals (e : thrown) (toolsUsed textChunks : Z) : list signal :=
  [ log error "Stream processing error"
      [("error", a_string match e with
                          | Error_object message _ => message
                          | not_an_Error => "Unknown error"
                          end);
       ("toolsUsed", a_number toolsUsed);
       ("textChunks", a_number textChunks)];
    count "chat.stream.error" 1 [("error_type", a_string "stream_processing")] ].

(** The accumulator after one message: the state machine of section 4.4. *)
Definition after_message (requestStartTime streamStartTime : Z) (m : SDKMessage)
    (w : world) : world :=
  let tools := tool_invocations m in
  let toolsUsed := toolsUsedCount w + Z.of_nat (List.length tools) in
  let textChunks :=
    textChunksCount w + (match streaming_text_delta m with Some _ => 1 | None => 0 end) in
  mk_world
    (sink w
       ++ flat_map tool_signals tools
       ++ (if success_result m
           then completion_signals (clock w (reads w) - requestStartTime)
                  (clock w (S (reads w)) - streamStartTime) toolsUsed textChunks
           else [])
       ++ (if failure_result m then failure_signals (subtype m) else []))
    (clock w)
    (if success_result m then S (S (reads w)) else reads w)
    toolsUsed
    textChunks
    (queue w ++ map Wire.encode (translate m))
    (closed w).

Definition after_messages (requestStartTime streamStartTime : Z)
    (ms : list SDKMessage) (w : world) : world :=
  fold_left (fun w m => after_message requestStartTime streamStartTime m w) ms w.

(** The texts of the streaming text deltas among messages, in order. *)
Definition text_deltas (ms : list SDKMessage) : list string :=
  flat_map (fun m => match streaming_text_delta m with
                     | Some t => [t]
                     | None => []
                     end) ms.

(** A signal of the named metric. *)
Definition is_metric (metric : string) (s : signal) : bool :=
  match s with
  | count m _ _ | distribution m _ _ _ => m === metric
  | log _ _ _ => false
  end.

(** The handler's result on a freshly started process. *)
Definition response_of (request : Request) (query : string -> Options -> AgentRun)
    (clock : nat -> Z) : outcome Response :=
  fst (POST request query (boot clock)).

Definition served (request : Request) (query : string -> Options -> AgentRun)
    (clock : nat -> Z) : world :=
  snd (POST request query (boot clock)).

(** The stream once the iteration is over: the sentinel after a normal
    end, the catch clause's telemetry and error event after a throw;
    closed either way. *)
Definition finished (requestStartTime streamStartTime : Z) (run : AgentRun)
    (w : world) : world :=
  let w' := after_messages requestStartTime streamStartTime (yields run) w in
  match raises run with
  | None =>
      mk_world (sink w') (clock w') (reads w') (toolsUsedCount w')
        (textChunksCount w') (queue w' ++ [Wire.DONE]) true
  | Some e =>
      mk_world
        (sink w' ++ stream_error_signals e (toolsUsedCount w') (textChunksCount w'))
        (clock w') (reads w') (toolsUsedCount w') (textChunksCount w')
        (queue w' ++ [Wire.encode Wire.stream_failed]) true
  end.

(** The telemetry of an accepted request, up to the start of the stream. *)
Definition accepted_signals (messages : list MessageInput)
    (lastUserMessage : MessageInput) : list signal :=
  [ count "chat.api.request" 1 [("endpoint", a_string "/api/chat")];
    log info "Chat API request received"
      [("messageCount", a_number (Z.of_nat (List.length messages)))];
    distribution "chat.message.length" (js_length (content lastUserMessage)) "none"
      [("type", a_string "user_message")];
    log info "Processing chat request"
      [("conversationLength", a_number (Z.of_nat (List.length messages)));
       ("lastMessageLength", a_number (js_length (content lastUserMessage)))];
    log info "Starting Claude Agent SDK query" [] ].

Definition accepted (messages : list MessageInput) (lastUserMessage : MessageInput)
    (clock : nat -> Z) : world :=
  mk_world (accepted_signals messages lastUserMessage) clock 2%nat 0 0 [] false.

(** The response that carries the event stream. *)
Definition streaming : Response :=
  {| response_body := body_stream; status := 200; headers := stream_headers |}.

(** A JSON error response. *)
Definition json_error (status : Z) (error_text : string) : Response :=
  {| response_body :=
       body_text ("{" ++ Wire.lit "error" ++ ":" ++ Wire.lit error_text ++ "}");
     status := status;
     headers := json_headers |}.

(** The final chunk of a stream, by how the iteration ended. *)
Definition last_chunk (raised : option thrown) : string :=
  match raised with
  | None => Wire.DONE
  | Some _ => Wire.encode Wire.stream_failed
  end.

(** ** Sample inputs *)

Definition hi : MessageInput := {| role := user; content := "hi" |}.
Definition yo : MessageInput := {| role := assistant; content := "yo" |}.

Definition sample_other : SDKMessage :=
  {| type := "system"; event := None; message_content := None;
     tool_name := ""; elapsed_time_seconds := whole 0; subtype := "init" |}.

Definition sample_text (t : string) : SDKMessage :=
  {| type := "stream_event";
     event := Some {| event_type := "content_block_delta";
                      delta := Some {| delta_type := "text_delta"; text := t |} |};
     message_content := None;
     tool_name := ""; elapsed_time_seconds := whole 0; subtype := "" |}.

Definition sample_assistant (tools : list string) : SDKMessage :=
  {| type := "assistant"; event := None;
     message_content :=
       Some ({| block_type := "text"; name := "" |}
             :: map (fun t => {| block_type := "tool_use"; name := t |}) tools);
     tool_name := ""; elapsed_time_seconds := whole 0; subtype := "" |}.

Definition sample_result (subtype : string) : SDKMessage :=
  {| type := "result"; event := None; message_content := None;
     tool_name := ""; elapsed_time_seconds := whole 0; subtype := subtype |}.

Definition frozen_clock : nat -> Z := fun _ => 0.

Definition sample_agent (yielded : list SDKMessage) (raised : option thrown)
    : string -> Options -> AgentRun :=
  fun _ _ => {| yields := yielded; raises := raised |}.

Definition boom : thrown := Error_object "boom" (Some "at query").

(** ** Runs that differ only in error detail *)

(** Two messages are alike when they are the same message, or both are
    failed results, whatever their subtypes. *)
Definition alike (a b : SDKMessage) : Prop :=
  a = b \/ (failure_result a = true /\ failure_result b = true).

(** Two iterations end alike when both are exhausted or both throw,
    whatever the values thrown. *)
Definition same_ending (a b : option thrown) : Prop :=
  match a, b with
  | None, None | Some _, Some _ => True
  | _, _ => False
  end.

(** ** Further notions for the properties of the whole handler *)

(** A message list holds a user turn. *)
Definition has_user_turn (messages : list MessageInput) : bool :=
  existsb (fun m => Role_eqb (role m) user) messages.



(** A text that holds no line break: neither a line feed nor a carriage
    return. *)
Fixpoint one_line (s : string) : bool :=
  match s with
  | EmptyString => true
  | String c rest =>
      negb (Ascii.eqb c "010") && negb (Ascii.eqb c "013") && one_line rest
  end.

(** The metrics the stream emits, as opposed to those of the request. *)
Definition stream_metric (metric : string) : bool :=
  existsb (String.eqb metric)
    [ "chat.tool.invocation"; "chat.api.success"; "chat.api.duration";
      "chat.stream.chunks"; "chat.tools.count"; "chat.api.failure";
      "chat.stream.error" ].


(** An agent that answers one prompt and throws on any other. *)
Definition agent_for (prompt : string) (run : AgentRun)
    : string -> Options -> AgentRun :=
  fun p _ => if p === prompt then run else {| yields := []; raises := Some boom |}.

(** * Properties *)

Local Open Scope list_scope.

(** ** Strings and the wire encoding *)

Lemma string_app_assoc (a b c : string) : ((a ++ b) ++ c = a ++ (b ++ c))%string.
Proof.
  induction a as [|x a IH]; cbn; [reflexivity | now rewrite IH].
Qed.

Ltac wire_text := intros; cbn; rewrite ?string_app_assoc; reflexivity.

Lemma stringify_text_delta t :
  data_line (JSON.stringify
    [("type", JSON.j_string "text_delta"); ("text", JSON.j_string t)])
  = Wire.encode (Wire.text_delta t).
Proof. wire_text. Qed.

Lemma stringify_tool_start t :
  data_line (JSON.stringify
    [("type", JSON.j_string "tool_start"); ("tool", JSON.j_string t)])
  = Wire.encode (Wire.tool_start t).
Proof. wire_text. Qed.

Lemma stringify_tool_progress t n :
  data_line (JSON.stringify
    [("type", JSON.j_string "tool_progress"); ("tool", JSON.j_string t);
     ("elapsed", JSON.j_number n)])
  = Wire.encode (Wire.tool_progress t n).
Proof. wire_text. Qed.

Lemma stringify_done :
  data_line (JSON.stringify [("type", JSON.j_string "done")]) = Wire.encode Wire.done.
Proof. reflexivity. Qed.

Lemma stringify_query_failed :
  data_line (JSON.stringify
    [("type", JSON.j_string "error");
     ("message", JSON.j_string "Query did not complete successfully")])
  = Wire.encode Wire.query_failed.
Proof. reflexivity. Qed.

Lemma stringify_stream_failed :
  data_line (JSON.stringify
    [("type", JSON.j_string "error");
     ("message", JSON.j_string "Stream error occurred")])
  = Wire.encode Wire.stream_failed.
Proof. reflexivity. Qed.

(** The type tag of a chunk tells the kind of the event it encodes. *)
Lemma has_type_text_delta e :
  Wire.has_type "text_delta" (Wire.encode e) = Wire.is_text_delta e.
Proof. destruct e; reflexivity. Qed.

Lemma has_type_tool_start e :
  Wire.has_type "tool_start" (Wire.encode e) = Wire.is_tool_start e.
Proof. destruct e; reflexivity. Qed.

Lemma has_type_done e :
  Wire.has_type "done" (Wire.encode e) = Wire.is_done e.
Proof. destruct e; reflexivity. Qed.

Lemma has_type_error e :
  Wire.has_type "error" (Wire.encode e) = Wire.is_error e.
Proof. destruct e; reflexivity. Qed.

Lemma has_type_DONE ty : Wire.has_type ty Wire.DONE = false.
Proof. reflexivity. Qed.

Lemma encode_not_DONE e : Wire.encode e <> Wire.DONE.
Proof. destruct e; discriminate. Qed.

(** ** The loop body against the translation table *)

Lemma world_eta w :
  w = mk_world (sink w) (clock w) (reads w) (toolsUsedCount w) (textChunksCount w)
        (queue w) (closed w).
Proof. now destruct w. Qed.

Lemma for_of_tool_blocks blocks : forall w,
  for_of blocks (fun block =>
    when (block_type block === "tool_use")
      (n <- get_toolsUsedCount ;;
       set_toolsUsedCount (n + 1) ;;
       Sentry.logger_info "Tool invoked" [("tool", a_string (name block))] ;;
       Sentry.metrics_count "chat.tool.invocation" 1
         [("tool_name", a_string (name block))] ;;
       enqueue (data_line (JSON.stringify
         [("type", JSON.j_string "tool_start");
          ("tool", JSON.j_string (name block))])))) w
  = let tools := map name (filter (fun b => block_type b === "tool_use") blocks) in
    (returned tt,
     mk_world (sink w ++ flat_map tool_signals tools) (clock w) (reads w)
       (toolsUsedCount w + Z.of_nat (List.length tools)) (textChunksCount w)
       (queue w ++ map Wire.encode (map Wire.tool_start tools)) (closed w)).
Proof.
  induction blocks as [|b blocks IH]; intros w.
  - cbn [for_of filter map flat_map List.length]. unfold ret.
    rewrite !app_nil_r, Z.add_0_r. now rewrite <- world_eta.
  - cbn [for_of filter]. unfold bind at 1.
    destruct (block_type b === "tool_use") eqn:E.
    + unfold when at 1.
      unfold bind, get_toolsUsedCount, set_toolsUsedCount, Sentry.logger_info,
        Sentry.metrics_count, emit, enqueue at 1.
      cbn [fst snd sink clock reads toolsUsedCount textChunksCount queue closed].
      rewrite IH.
      cbn [map flat_map List.length tool_signals
           sink clock reads toolsUsedCount textChunksCount queue closed].
      rewrite stringify_tool_start, <- !app_assoc.
      cbn [app]. do 2 f_equal. lia.
    + unfold when at 1, ret at 1. apply IH.
Qed.

#[local] Arguments data_line : simpl never.
#[local] Arguments JSON.stringify : simpl never.
#[local] Arguments Wire.encode : simpl never.

Ltac run_step :=
  cbv beta iota zeta delta
    [bind when ret throw try_catch get_toolsUsedCount set_toolsUsedCount
     get_textChunksCount set_textChunksCount performance_now
     Sentry.logger_info Sentry.logger_warn Sentry.logger_error
     Sentry.metrics_count Sentry.metrics_distribution emit enqueue close
     fst snd sink clock reads toolsUsedCount textChunksCount queue closed].

Ltac same_world :=
  cbn [map flat_map app List.length Z.of_nat tool_signals completion_signals
       failure_signals];
  rewrite ?app_nil_r, ?Z.add_0_r, <- ?app_assoc;
  rewrite ?stringify_text_delta, ?stringify_tool_progress, ?stringify_done,
    ?stringify_query_failed;
  try rewrite <- world_eta; try reflexivity.

(** One pass of the loop body moves the accumulator as the table says. *)
Lemma on_message_after t0 t1 m w :
  on_message t0 t1 m w = (returned tt, after_message t0 t1 m w).
Proof.
  unfold on_message, after_message, translate, streaming_text_delta,
    tool_invocations, tool_progress_notice, success_result, failure_result.
  destruct m as [ty ev mc tn el st], w as [sk ck rd tu tc qu cl];
    cbn [type event message_content tool_name elapsed_time_seconds subtype
         sink clock reads toolsUsedCount textChunksCount queue closed].
  destruct (String.eqb_spec ty "stream_event") as [->|H1].
  - cbn [String.eqb Ascii.eqb Bool.eqb andb].
    destruct ev as [[ety [d|]]|]; cbn [delta event_type].
    + destruct ((ety === "content_block_delta") && (delta_type d === "text_delta"));
        run_step; same_world.
    + run_step; same_world.
    + run_step; same_world.
  - destruct (String.eqb_spec ty "assistant") as [->|H2].
    + cbn [String.eqb Ascii.eqb Bool.eqb andb].
      destruct mc as [blocks|].
      * unfold bind at 1, ret at 1. unfold bind at 1.
        rewrite for_of_tool_blocks. cbv zeta. run_step.
        cbn [app]. rewrite ?app_nil_r, ?Z.add_0_r. reflexivity.
      * run_step; same_world.
    + destruct (String.eqb_spec ty "tool_progress") as [->|H3].
      * cbn [String.eqb Ascii.eqb Bool.eqb andb]. run_step; same_world.
      * destruct (String.eqb_spec ty "result") as [->|H4];
          cbn [String.eqb Ascii.eqb Bool.eqb andb negb].
        -- destruct (st === "success"); cbn [negb]; run_step; same_world.
        -- run_step; same_world.
Qed.

(** ** The loop, the stream and the request *)

Lemma for_await_messages_after t0 t1 ms raised : forall w,
  for_await_messages ms raised (on_message t0 t1) w
  = (match raised with None => returned tt | Some e => threw e end,
     after_messages t0 t1 ms w).
Proof.
  induction ms as [|m ms IH]; intros w;
    cbn [for_await_messages after_messages fold_left].
  - now destruct raised.
  - unfold bind at 1. rewrite on_message_after. apply IH.
Qed.

Lemma after_messages_app t0 t1 a b w :
  after_messages t0 t1 (a ++ b) w = after_messages t0 t1 b (after_messages t0 t1 a w).
Proof. apply fold_left_app. Qed.

Lemma queue_after_messages t0 t1 ms : forall w,
  queue (after_messages t0 t1 ms w) = queue w ++ map Wire.encode (translate_all ms).
Proof.
  induction ms as [|m ms IH]; intros w; cbn [after_messages fold_left].
  - cbn. now rewrite app_nil_r.
  - fold (after_messages t0 t1 ms (after_message t0 t1 m w)). rewrite IH.
    unfold translate_all. cbn [flat_map queue after_message].
    now rewrite map_app, app_assoc.
Qed.

Lemma toolsUsedCount_after_messages t0 t1 ms : forall w,
  toolsUsedCount (after_messages t0 t1 ms w)
  = toolsUsedCount w + Z.of_nat (List.length (flat_map tool_invocations ms)).
Proof.
  induction ms as [|m ms IH]; intros w; cbn [after_messages fold_left].
  - cbn. lia.
  - fold (after_messages t0 t1 ms (after_message t0 t1 m w)). rewrite IH.
    cbn [flat_map toolsUsedCount after_message]. rewrite length_app. lia.
Qed.

Lemma textChunksCount_after_messages t0 t1 ms : forall w,
  textChunksCount (after_messages t0 t1 ms w)
  = textChunksCount w + Z.of_nat (List.length (text_deltas ms)).
Proof.
  induction ms as [|m ms IH]; intros w; cbn [after_messages fold_left].
  - cbn. lia.
  - fold (after_messages t0 t1 ms (after_message t0 t1 m w)). rewrite IH.
    unfold text_deltas. cbn [flat_map textChunksCount after_message].
    rewrite length_app. destruct (streaming_text_delta m); cbn [List.length]; lia.
Qed.

Lemma closed_after_messages t0 t1 ms : forall w,
  closed (after_messages t0 t1 ms w) = closed w.
Proof.
  induction ms as [|m ms IH]; intros w; cbn [after_messages fold_left];
    [reflexivity|].
  fold (after_messages t0 t1 ms (after_message t0 t1 m w)). now rewrite IH.
Qed.

Lemma start_finished query prompt t0 t1 w :
  start query prompt t0 t1 w = (returned tt, finished t0 t1 (query prompt query_options) w).
Proof.
  unfold start, finished, for_await, try_catch. unfold bind at 1.
  rewrite for_await_messages_after.
  generalize (after_messages t0 t1 (yields (query prompt query_options)) w).
  intros [sk ck rd tu tc qu cl].
  destruct (raises (query prompt query_options)) as [e|]; run_step.
  - rewrite stringify_stream_failed, <- app_assoc. reflexivity.
  - reflexivity.
Qed.

(** A request with a user turn is answered with a stream, fed by the
    agent's run on the composed prompt. *)
Lemma POST_accepts ms m query clock :
  lastUserMessage ms = Some m ->
  POST (json_gives (js_array ms)) query (boot clock)
  = (returned streaming,
     finished (clock 0%nat) (clock 1%nat) (query (fullPrompt ms m) query_options)
       (accepted ms m clock)).
Proof.
  intros H. unfold POST, boot, request_json. run_step.
  cbn [truthy Array_isArray negb orb elements_of length_or_0]. rewrite H.
  rewrite start_finished. reflexivity.
Qed.

Lemma response_accepts ms m query clock :
  lastUserMessage ms = Some m ->
  response_of (json_gives (js_array ms)) query clock = returned streaming.
Proof. intros H. unfold response_of. now rewrite (POST_accepts ms m). Qed.

Lemma served_accepts ms m query clock :
  lastUserMessage ms = Some m ->
  served (json_gives (js_array ms)) query clock
  = finished (clock 0%nat) (clock 1%nat) (query (fullPrompt ms m) query_options)
      (accepted ms m clock).
Proof. intros H. unfold served. now rewrite (POST_accepts ms m). Qed.

Lemma queue_finished t0 t1 run w :
  queue (finished t0 t1 run w)
  = queue w ++ map Wire.encode (translate_all (yields run)) ++ [last_chunk (raises run)].
Proof.
  unfold finished, last_chunk.
  destruct (raises run); cbn [queue]; rewrite queue_after_messages;
    now rewrite app_assoc.
Qed.

Lemma closed_finished t0 t1 run w : closed (finished t0 t1 run w) = true.
Proof. unfold finished. now destruct (raises run). Qed.

(** ** Request validation *)

(** C1, the claim as stated, fails on the empty array: the handler answers
    400 with the body of the missing-user-turn guard, not with
    [Messages array is required]. *)
Lemma C1_empty_array_counterexample :
  response_of (json_gives (js_array [])) (sample_agent [] None) frozen_clock
  <> returned (json_error 400 "Messages array is required").
Proof.
  intros H. vm_compute in H. discriminate H.
Qed.

(** C1 (amended). A request whose [messages] field is missing or is not an
    array is answered 400 with the body [Messages array is required], one
    [chat.api.error] increment tagged [invalid_messages], and no stream.
    An empty array is answered 400 without a stream as well, by the next
    guard: body [No user message found], increment tagged
    [no_user_message]. *)
Theorem C1_invalid_messages_rejected (messages : js_value)
    (query : string -> Options -> AgentRun) (clock : nat -> Z) :
  (Array_isArray messages = false ->
     response_of (json_gives messages) query clock
       = returned (json_error 400 "Messages array is required")
     /\ filter (is_metric "chat.api.error")
          (sink (served (json_gives messages) query clock))
        = [count "chat.api.error" 1 [("error_type", a_string "invalid_messages")]]
     /\ queue (served (json_gives messages) query clock) = []
     /\ closed (served (json_gives messages) query clock) = false)
  /\ (messages = js_array [] ->
     response_of (json_gives messages) query clock
       = returned (json_error 400 "No user message found")
     /\ filter (is_metric "chat.api.error")
          (sink (served (json_gives messages) query clock))
        = [count "chat.api.error" 1 [("error_type", a_string "no_user_message")]]
     /\ queue (served (json_gives messages) query clock) = []
     /\ closed (served (json_gives messages) query clock) = false).
Proof.
  split.
  - intros H. unfold response_of, served, POST, boot, request_json. run_step.
    rewrite H. cbn [negb]. rewrite orb_true_r.
    cbn [fst snd sink queue closed]. repeat split.
  - intros ->. repeat split.
Qed.

Lemma C1_invalid_messages_rejected_witness :
  (response_of (json_gives js_undefined) (sample_agent [] None) frozen_clock
     = returned (json_error 400 "Messages array is required")
   /\ filter (is_metric "chat.api.error")
        (sink (served (json_gives js_undefined) (sample_agent [] None) frozen_clock))
      = [count "chat.api.error" 1 [("error_type", a_string "invalid_messages")]]
   /\ queue (served (json_gives js_undefined) (sample_agent [] None) frozen_clock) = []
   /\ closed (served (json_gives js_undefined) (sample_agent [] None) frozen_clock)
      = false)
  /\ (response_of (json_gives (js_array [])) (sample_agent [] None) frozen_clock
        = returned (json_error 400 "No user message found")
      /\ filter (is_metric "chat.api.error")
           (sink (served (json_gives (js_array [])) (sample_agent [] None) frozen_clock))
         = [count "chat.api.error" 1 [("error_type", a_string "no_user_message")]]
      /\ queue (served (json_gives (js_array [])) (sample_agent [] None) frozen_clock) = []
      /\ closed (served (json_gives (js_array [])) (sample_agent [] None) frozen_clock)
         = false).
Proof.
  split.
  - apply (proj1 (C1_invalid_messages_rejected js_undefined (sample_agent [] None)
                    frozen_clock)).
    reflexivity.
  - apply (proj2 (C1_invalid_messages_rejected (js_array []) (sample_agent [] None)
                    frozen_clock)).
    reflexivity.
Defined.

(** ** The end of the stream *)

(** C2, the claim as stated, fails when the agent's iterator throws: the
    stream is opened, and the sentinel is not among its chunks. *)
Lemma C2_raised_stream_counterexample :
  response_of (json_gives (js_array [hi]))
    (sample_agent [sample_assistant ["WebSearch"]] (Some boom)) frozen_clock
  = returned streaming
  /\ ~ In Wire.DONE
       (queue (served (json_gives (js_array [hi]))
                 (sample_agent [sample_assistant ["WebSearch"]] (Some boom))
                 frozen_clock)).
Proof.
  split; [reflexivity|].
  vm_compute. intros [H|[H|[]]]; discriminate H.
Qed.

(** C2 (amended). For every request that opens a stream, the stream is the
    translation of the messages the agent yielded followed by one last
    chunk, and is then closed. When the iteration ends without a throw the
    last chunk is the sentinel [data: [DONE]\n\n]; when it throws, the last
    chunk is the generic error event [Stream error occurred] and the
    sentinel is not sent at all. *)
Theorem C2_stream_ending (ms : list MessageInput) (m : MessageInput)
    (query : string -> Options -> AgentRun) (clock : nat -> Z) :
  lastUserMessage ms = Some m ->
  let run := query (fullPrompt ms m) query_options in
  let w := served (json_gives (js_array ms)) query clock in
  response_of (json_gives (js_array ms)) query clock = returned streaming
  /\ closed w = true
  /\ (raises run = None ->
      queue w = map Wire.encode (translate_all (yields run))
                ++ ["data: [DONE]" ++ nl ++ nl]%string)
  /\ (forall e, raises run = Some e ->
      queue w = map Wire.encode (translate_all (yields run))
                ++ [Wire.encode (Wire.error "Stream error occurred")]
      /\ ~ In ("data: [DONE]" ++ nl ++ nl)%string (queue w)).
Proof.
  intros H run w.
  assert (Hq : queue w = map Wire.encode (translate_all (yields run))
                           ++ [last_chunk (raises run)]).
  { unfold w. rewrite (served_accepts ms m) by assumption.
    now rewrite queue_finished. }
  split; [now apply response_accepts with m|].
  split; [unfold w; rewrite (served_accepts ms m) by assumption;
          apply closed_finished|].
  split.
  - intros E. now rewrite Hq, E.
  - intros e E. rewrite Hq, E. split; [reflexivity|].
    rewrite in_app_iff, in_map_iff. intros [[ev [Hev _]]|[Hl|[]]].
    + now apply (encode_not_DONE ev).
    + discriminate Hl.
Qed.

Lemma C2_stream_ending_witness :
  lastUserMessage [hi] = Some hi
  /\ queue (served (json_gives (js_array [hi]))
              (sample_agent [sample_text "Hello"; sample_result "success"] None)
              frozen_clock)
     = [Wire.encode (Wire.text_delta "Hello"); Wire.encode Wire.done;
        ("data: [DONE]" ++ nl ++ nl)%string].
Proof.
  split; [reflexivity|].
  apply (C2_stream_ending [hi] hi
           (sample_agent [sample_text "Hello"; sample_result "success"] None)
           frozen_clock).
  - reflexivity.
  - reflexivity.
Defined.

(** ** Prompt composition *)

Lemma no_user_turn ms :
  filter (fun x => Role_eqb (role x) user) ms = [] ->
  Forall (fun x => role x = assistant) ms.
Proof.
  induction ms as [|x ms IH]; cbn [filter]; intros H; [constructor|].
  destruct (role x) eqn:R; cbn [Role_eqb] in H; [discriminate H|].
  constructor; auto.
Qed.

(** The message [lastUserMessage] picks is the last turn of role user. *)
Lemma lastUserMessage_is_last_user_turn ms m :
  lastUserMessage ms = Some m ->
  exists before after,
    ms = before ++ m :: after
    /\ role m = user
    /\ Forall (fun x => role x = assistant) after.
Proof.
  unfold lastUserMessage.
  induction ms as [|x ms IH]; cbn [filter pop]; [discriminate|].
  destruct (role x) eqn:R; cbn [Role_eqb].
  - destruct (filter (fun x0 => Role_eqb (role x0) user) ms) as [|y l] eqn:F.
    + cbn [pop]. intros [= <-]. exists [], ms. repeat split; auto.
      now apply no_user_turn.
    + intros H. change (pop (x :: y :: l)) with (pop (y :: l)) in H.
      destruct (IH H) as (b & a & -> & Hm & Ha).
      exists (x :: b), a. repeat split; auto.
  - intros H. destruct (IH H) as (b & a & -> & Hm & Ha).
    exists (x :: b), a. repeat split; auto.
Qed.

(** C3. With the last message an assistant turn, the active prompt is the
    user turn before it, and the transcript, which drops only the last
    message, still holds that user turn: the composite prompt carries
    [User: hi] twice, once in the transcript and once as its final line. *)
Theorem C3_active_prompt_repeated :
  lastUserMessage [hi; yo] = Some hi
  /\ conversationContext [hi; yo] = "User: hi"
  /\ fullPrompt [hi; yo] hi
     = (SYSTEM_PROMPT ++ nl ++ nl ++ "Previous conversation:" ++ nl
        ++ "User: hi" ++ nl ++ nl ++ "User: hi")%string.
Proof.
  split; [reflexivity|]. split; [reflexivity|].
  unfold fullPrompt.
  change (conversationContext [hi; yo]) with "User: hi".
  reflexivity.
Qed.

(** C8. For every message list with a user turn, the composite prompt
    ends with [User: ] followed by the content of the last user turn. *)
Theorem C8_prompt_ends_with_last_user_turn (ms : list MessageInput)
    (m : MessageInput) :
  lastUserMessage ms = Some m ->
  (exists before after,
     ms = before ++ m :: after
     /\ role m = user
     /\ Forall (fun x => role x = assistant) after)
  /\ exists head, fullPrompt ms m = (head ++ "User: " ++ content m)%string.
Proof.
  intros H. split; [now apply lastUserMessage_is_last_user_turn|].
  unfold fullPrompt.
  destruct (negb (conversationContext ms === "")).
  - exists (SYSTEM_PROMPT ++ nl ++ nl ++ "Previous conversation:" ++ nl
            ++ conversationContext ms ++ nl ++ nl)%string.
    now rewrite !string_app_assoc.
  - exists (SYSTEM_PROMPT ++ nl ++ nl)%string.
    now rewrite !string_app_assoc.
Qed.

Lemma C8_prompt_ends_with_last_user_turn_witness :
  lastUserMessage [hi; yo; {| role := user; content := "and then?" |}]
  = Some {| role := user; content := "and then?" |}
  /\ exists head,
       fullPrompt [hi; yo; {| role := user; content := "and then?" |}]
         {| role := user; content := "and then?" |}
       = (head ++ "User: " ++ "and then?")%string.
Proof.
  split; [reflexivity|].
  apply (C8_prompt_ends_with_last_user_turn
           [hi; yo; {| role := user; content := "and then?" |}]
           {| role := user; content := "and then?" |}).
  reflexivity.
Defined.

Lemma pop_last {A : Type} (l : list A) (x : A) : pop (l ++ [x]) = Some x.
Proof.
  induction l as [|y l IH]; [reflexivity|].
  cbn [app pop]. destruct (l ++ [x]) eqn:E; [|exact IH].
  now destruct l.
Qed.

(** When the last message is a user turn, it is the active prompt and the
    transcript renders exactly the turns before it. *)
Lemma transcript_before_last_user_turn earlier m :
  role m = user ->
  lastUserMessage (earlier ++ [m]) = Some m
  /\ conversationContext (earlier ++ [m])
     = String.concat (nl ++ nl)
         (map (fun x => (match role x with user => "User" | assistant => "Assistant" end
                         ++ ": " ++ content x)%string) earlier).
Proof.
  intros R. split.
  - unfold lastUserMessage. rewrite filter_app. cbn [filter]. rewrite R.
    cbn [Role_eqb]. apply pop_last.
  - unfold conversationContext. now rewrite removelast_last.
Qed.

(** ** Events of one kind among the chunks of a stream *)

Lemma filter_encoded ty (p : Wire.event -> bool) evs :
  (forall e, Wire.has_type ty (Wire.encode e) = p e) ->
  filter (Wire.has_type ty) (map Wire.encode evs) = map Wire.encode (filter p evs).
Proof.
  intros H. induction evs as [|e evs IH]; cbn [map filter]; [reflexivity|].
  rewrite H. destruct (p e); cbn [map]; now rewrite IH.
Qed.

Lemma filter_tool_starts (p : Wire.event -> bool) tools :
  (forall t, p (Wire.tool_start t) = true) ->
  filter p (map Wire.tool_start tools) = map Wire.tool_start tools.
Proof.
  intros H. induction tools as [|t tools IH]; cbn [map filter]; [reflexivity|].
  now rewrite H, IH.
Qed.

Lemma filter_no_tool_starts (p : Wire.event -> bool) tools :
  (forall t, p (Wire.tool_start t) = false) ->
  filter p (map Wire.tool_start tools) = [].
Proof.
  intros H. induction tools as [|t tools IH]; cbn [map filter]; [reflexivity|].
  now rewrite H, IH.
Qed.

Ltac by_kind m :=
  unfold translate; rewrite !filter_app;
  first [ rewrite filter_tool_starts by reflexivity
        | rewrite filter_no_tool_starts by reflexivity ];
  destruct (streaming_text_delta m), (tool_progress_notice m),
    (success_result m) eqn:?, (failure_result m) eqn:?;
  cbn [filter app map Wire.is_text_delta Wire.is_tool_start Wire.is_done
       Wire.is_error Wire.query_failed];
  rewrite ?app_nil_r; try reflexivity.

Lemma text_deltas_translated ms :
  filter Wire.is_text_delta (translate_all ms) = map Wire.text_delta (text_deltas ms).
Proof.
  unfold translate_all, text_deltas.
  induction ms as [|m ms IH]; cbn [flat_map]; [reflexivity|].
  rewrite filter_app, map_app, IH. f_equal. by_kind m.
Qed.

Lemma tool_starts_translated ms :
  filter Wire.is_tool_start (translate_all ms)
  = map Wire.tool_start (flat_map tool_invocations ms).
Proof.
  unfold translate_all.
  induction ms as [|m ms IH]; cbn [flat_map]; [reflexivity|].
  rewrite filter_app, map_app, IH. f_equal. by_kind m.
Qed.

Lemma dones_translated ms :
  filter Wire.is_done (translate_all ms)
  = map (fun _ => Wire.done) (filter success_result ms).
Proof.
  unfold translate_all.
  induction ms as [|m ms IH]; cbn [flat_map filter]; [reflexivity|].
  rewrite filter_app, IH.
  replace (filter Wire.is_done (translate m))
    with (if success_result m then [Wire.done] else []) by (by_kind m).
  now destruct (success_result m).
Qed.

Lemma errors_translated ms :
  filter Wire.is_error (translate_all ms)
  = map (fun _ => Wire.query_failed) (filter failure_result ms).
Proof.
  unfold translate_all.
  induction ms as [|m ms IH]; cbn [flat_map filter]; [reflexivity|].
  rewrite filter_app, IH.
  replace (filter Wire.is_error (translate m))
    with (if failure_result m then [Wire.query_failed] else []) by (by_kind m).
  now destruct (failure_result m).
Qed.

(** ** Telemetry of the loop *)

Lemma tool_counts_of_signals tools :
  filter (is_metric "chat.tool.invocation") (flat_map tool_signals tools)
  = map (fun t => count "chat.tool.invocation" 1 [("tool_name", a_string t)]) tools.
Proof.
  induction tools as [|t tools IH]; [reflexivity|].
  cbn [flat_map tool_signals app filter is_metric map].
  change ("chat.tool.invocation" === "chat.tool.invocation") with true.
  cbn iota. now rewrite IH.
Qed.

Lemma tool_counts_after_messages t0 t1 ms : forall w,
  filter (is_metric "chat.tool.invocation") (sink (after_messages t0 t1 ms w))
  = filter (is_metric "chat.tool.invocation") (sink w)
    ++ map (fun t => count "chat.tool.invocation" 1 [("tool_name", a_string t)])
         (flat_map tool_invocations ms).
Proof.
  induction ms as [|m ms IH]; intros w; cbn [after_messages fold_left flat_map].
  - now rewrite app_nil_r.
  - fold (after_messages t0 t1 ms (after_message t0 t1 m w)). rewrite IH.
    cbn [sink after_message]. rewrite !filter_app, tool_counts_of_signals, map_app.
    destruct (success_result m), (failure_result m);
      cbn [filter completion_signals failure_signals is_metric app];
      rewrite ?app_nil_r; now rewrite app_assoc.
Qed.

(** ** Tool invocations *)

(** C4. Whatever the agent yields, the [tool_start] chunks of the stream
    are, in order, one per tool-invocation block of the assistant messages,
    each carrying that block's tool name; [toolsUsedCount] ends at their
    number, and the [chat.tool.invocation] counter is incremented once per
    block, tagged with the tool name, in the same order. *)
Theorem C4_tool_start_per_block (ms : list MessageInput) (m : MessageInput)
    (query : string -> Options -> AgentRun) (clock : nat -> Z) :
  lastUserMessage ms = Some m ->
  let run := query (fullPrompt ms m) query_options in
  let w := served (json_gives (js_array ms)) query clock in
  let tools := flat_map tool_invocations (yields run) in
  filter (Wire.has_type "tool_start") (queue w)
    = map (fun t => Wire.encode (Wire.tool_start t)) tools
  /\ toolsUsedCount w = Z.of_nat (List.length tools)
  /\ filter (is_metric "chat.tool.invocation") (sink w)
     = map (fun t => count "chat.tool.invocation" 1 [("tool_name", a_string t)]) tools.
Proof.
  intros H run w tools. unfold w. rewrite (served_accepts ms m) by assumption.
  fold run. split; [|split].
  - rewrite queue_finished. cbn [queue accepted app].
    rewrite filter_app, (filter_encoded _ _ _ has_type_tool_start),
      tool_starts_translated, map_map.
    unfold last_chunk. destruct (raises run); cbn [filter];
      now rewrite app_nil_r.
  - unfold finished. fold run.
    destruct (raises run); cbn [toolsUsedCount];
      now rewrite toolsUsedCount_after_messages.
  - unfold finished. fold run.
    destruct (raises run); cbn [sink]; rewrite ?filter_app;
      rewrite tool_counts_after_messages; cbn; now rewrite ?app_nil_r.
Qed.

Lemma C4_tool_start_per_block_witness :
  lastUserMessage [hi] = Some hi
  /\ filter (Wire.has_type "tool_start")
       (queue (served (json_gives (js_array [hi]))
                 (sample_agent [sample_assistant ["WebSearch"; "Read"];
                                sample_text "ok";
                                sample_assistant ["Bash"];
                                sample_result "success"] None)
                 frozen_clock))
     = [Wire.encode (Wire.tool_start "WebSearch");
        Wire.encode (Wire.tool_start "Read");
        Wire.encode (Wire.tool_start "Bash")].
Proof.
  split; [reflexivity|].
  apply (C4_tool_start_per_block [hi] hi
           (sample_agent [sample_assistant ["WebSearch"; "Read"];
                          sample_text "ok";
                          sample_assistant ["Bash"];
                          sample_result "success"] None)
           frozen_clock).
  reflexivity.
Defined.

(** ** Results *)

Lemma result_is_no_text_delta r :
  type r = "result" -> streaming_text_delta r = None.
Proof. unfold streaming_text_delta. now intros ->. Qed.

Lemma result_invokes_no_tool r : type r = "result" -> tool_invocations r = [].
Proof. unfold tool_invocations. now intros ->. Qed.

Lemma result_is_no_progress r : type r = "result" -> tool_progress_notice r = false.
Proof. unfold tool_progress_notice. now intros ->. Qed.

Lemma result_of_failure r : failure_result r = true -> type r = "result".
Proof.
  unfold failure_result. intros H. apply andb_prop in H.
  now apply String.eqb_eq.
Qed.

Lemma translate_failure r :
  failure_result r = true -> translate r = [Wire.query_failed].
Proof.
  intros H. pose proof (result_of_failure r H) as T. unfold translate.
  rewrite result_is_no_text_delta, result_invokes_no_tool, result_is_no_progress, H
    by assumption.
  unfold failure_result, success_result in *. rewrite T in *.
  cbn [String.eqb Ascii.eqb Bool.eqb andb] in *.
  now destruct (subtype r === "success").
Qed.

Lemma after_messages_one t0 t1 r w :
  after_messages t0 t1 [r] w = after_message t0 t1 r w.
Proof. reflexivity. Qed.

Lemma text_deltas_app a b : text_deltas (a ++ b) = text_deltas a ++ text_deltas b.
Proof. apply flat_map_app. Qed.

Lemma translate_all_app a b : translate_all (a ++ b) = translate_all a ++ translate_all b.
Proof. apply flat_map_app. Qed.

(** C5. When the agent's messages end in a successful result, the
    completion log and the [chat.stream.chunks] sample emitted for it
    record as [textChunks] the number of streaming text deltas yielded,
    and they are the last telemetry of the loop; the [text_delta] chunks
    of the stream are, in order, one per streaming text delta, each
    carrying its text. *)
Theorem C5_text_chunks_counted (ms : list MessageInput) (m : MessageInput)
    (query : string -> Options -> AgentRun) (ticks : nat -> Z)
    (earlier : list SDKMessage) (r : SDKMessage) :
  lastUserMessage ms = Some m ->
  let run := query (fullPrompt ms m) query_options in
  let w := served (json_gives (js_array ms)) query ticks in
  let texts := text_deltas (yields run) in
  yields run = earlier ++ [r] ->
  type r = "result" ->
  subtype r = "success" ->
  (exists before totalDuration streamDuration toolsUsed,
     sink w
     = before
       ++ [ log info "Chat request completed successfully"
              [("totalDuration", a_number totalDuration);
               ("streamDuration", a_number streamDuration);
               ("toolsUsed", a_number toolsUsed);
               ("textChunks", a_number (Z.of_nat (List.length texts)))];
            count "chat.api.success" 1 [];
            distribution "chat.api.duration" totalDuration "millisecond"
              [("status", a_string "success")];
            distribution "chat.stream.chunks" (Z.of_nat (List.length texts)) "none" [];
            distribution "chat.tools.count" toolsUsed "none" [] ]
       ++ match raises run with
          | None => []
          | Some e => stream_error_signals e toolsUsed (Z.of_nat (List.length texts))
          end)
  /\ filter (Wire.has_type "text_delta") (queue w)
     = map (fun t => Wire.encode (Wire.text_delta t)) texts.
Proof.
  intros H run w texts Hy Ht Hs. unfold w.
  rewrite (served_accepts ms m) by assumption. fold run. split.
  - unfold finished. fold run. rewrite Hy, after_messages_app, after_messages_one.
    set (w1 := after_messages (ticks 0%nat) (ticks 1%nat) earlier (accepted ms m ticks)).
    assert (Hc : textChunksCount (after_message (ticks 0%nat) (ticks 1%nat) r w1)
                 = Z.of_nat (List.length texts)).
    { cbn [after_message textChunksCount].
      rewrite result_is_no_text_delta by assumption.
      unfold w1. rewrite textChunksCount_after_messages. unfold texts. rewrite Hy.
      rewrite text_deltas_app. unfold text_deltas at 3. cbn [flat_map].
      rewrite result_is_no_text_delta by assumption.
      cbn [accepted textChunksCount app]. rewrite app_nil_r. lia. }
    assert (Hk : sink (after_message (ticks 0%nat) (ticks 1%nat) r w1)
                 = sink w1
                   ++ completion_signals (clock w1 (reads w1) - ticks 0%nat)
                        (clock w1 (S (reads w1)) - ticks 1%nat)
                        (toolsUsedCount (after_message (ticks 0%nat) (ticks 1%nat) r w1))
                        (textChunksCount (after_message (ticks 0%nat) (ticks 1%nat) r w1))).
    { cbn [after_message sink toolsUsedCount textChunksCount].
      rewrite result_invokes_no_tool by assumption.
      unfold success_result, failure_result. rewrite Ht, Hs.
      cbn [String.eqb Ascii.eqb Bool.eqb andb negb flat_map app].
      now rewrite app_nil_r. }
    exists (sink w1), (clock w1 (reads w1) - ticks 0%nat),
      (clock w1 (S (reads w1)) - ticks 1%nat),
      (toolsUsedCount (after_message (ticks 0%nat) (ticks 1%nat) r w1)).
    destruct (raises run); cbn [sink toolsUsedCount textChunksCount];
      rewrite Hk, Hc; unfold completion_signals;
      now rewrite <- ?app_assoc, ?app_nil_r.
  - rewrite queue_finished. cbn [queue accepted app].
    rewrite filter_app, (filter_encoded _ _ _ has_type_text_delta),
      text_deltas_translated, map_map.
    unfold last_chunk. destruct (raises run); cbn [filter];
      now rewrite app_nil_r.
Qed.

Lemma C5_text_chunks_counted_witness :
  lastUserMessage [hi] = Some hi
  /\ filter (Wire.has_type "text_delta")
       (queue (served (json_gives (js_array [hi]))
                 (sample_agent [sample_text "Hel"; sample_assistant ["Read"];
                                sample_text "lo"; sample_result "success"] None)
                 frozen_clock))
     = [Wire.encode (Wire.text_delta "Hel"); Wire.encode (Wire.text_delta "lo")].
Proof.
  split; [reflexivity|].
  apply (C5_text_chunks_counted [hi] hi
           (sample_agent [sample_text "Hel"; sample_assistant ["Read"];
                          sample_text "lo"; sample_result "success"] None)
           frozen_clock
           [sample_text "Hel"; sample_assistant ["Read"]; sample_text "lo"]
           (sample_result "success")); reflexivity.
Defined.

(** ** Ordering *)

Lemma encode_translate_all l :
  map Wire.encode (translate_all l)
  = flat_map (fun msg => map Wire.encode (translate msg)) l.
Proof.
  unfold translate_all.
  induction l as [|x l IH]; cbn [flat_map map]; [reflexivity|].
  now rewrite map_app, IH.
Qed.

(** C6. The stream is the in-order concatenation of the translations of
    the messages yielded, followed by the last chunk: however the messages
    are split into earlier and later ones, every chunk of an earlier
    message stands before every chunk of a later one. The translation of
    a message is what the loop body enqueues for it in any state. *)
Theorem C6_outbound_order (ms : list MessageInput) (m : MessageInput)
    (query : string -> Options -> AgentRun) (clock : nat -> Z) :
  lastUserMessage ms = Some m ->
  let run := query (fullPrompt ms m) query_options in
  let w := served (json_gives (js_array ms)) query clock in
  queue w
    = flat_map (fun msg => map Wire.encode (translate msg)) (yields run)
      ++ [last_chunk (raises run)]
  /\ (forall earlier later,
        yields run = earlier ++ later ->
        queue w
        = map Wire.encode (translate_all earlier)
          ++ map Wire.encode (translate_all later)
          ++ [last_chunk (raises run)])
  /\ (forall t0 t1 msg w0,
        on_message t0 t1 msg w0
        = (returned tt, after_message t0 t1 msg w0)
        /\ queue (after_message t0 t1 msg w0)
           = queue w0 ++ map Wire.encode (translate msg)).
Proof.
  intros H run w.
  assert (Hq : queue w = map Wire.encode (translate_all (yields run))
                           ++ [last_chunk (raises run)]).
  { unfold w. rewrite (served_accepts ms m) by assumption.
    now rewrite queue_finished. }
  split; [|split].
  - now rewrite Hq, encode_translate_all.
  - intros earlier later E.
    now rewrite Hq, E, translate_all_app, map_app, <- app_assoc.
  - intros t0 t1 msg w0. split; [apply on_message_after | reflexivity].
Qed.

Lemma C6_outbound_order_witness :
  lastUserMessage [hi] = Some hi
  /\ queue (served (json_gives (js_array [hi]))
              (sample_agent [sample_assistant ["WebSearch"]; sample_other;
                             sample_text "Found it"; sample_result "success"] None)
              frozen_clock)
     = [Wire.encode (Wire.tool_start "WebSearch");
        Wire.encode (Wire.text_delta "Found it");
        Wire.encode Wire.done;
        Wire.DONE].
Proof.
  split; [reflexivity|].
  pose proof (C6_outbound_order [hi] hi
                (sample_agent [sample_assistant ["WebSearch"]; sample_other;
                               sample_text "Found it"; sample_result "success"] None)
                frozen_clock eq_refl) as W.
  cbv zeta in W. destruct W as [W _].
  vm_compute in W. vm_compute. exact W.
Defined.

(** ** Failed results *)

(** C7, the claim as stated, fails when the iterator throws after it
    has yielded the failed result: the error event of the result is
    followed by the error event of the catch clause, and the sentinel
    is not sent. *)
Lemma C7_throw_after_failure_counterexample :
  lastUserMessage [hi] = Some hi
  /\ type (sample_result "error_max_turns") = "result"
  /\ subtype (sample_result "error_max_turns") <> "success"
  /\ queue (served (json_gives (js_array [hi]))
              (sample_agent [sample_result "error_max_turns"] (Some boom))
              frozen_clock)
     = [ Wire.encode (Wire.error "Query did not complete successfully");
         Wire.encode (Wire.error "Stream error occurred") ]
  /\ ~ (exists chunks,
          queue (served (json_gives (js_array [hi]))
                   (sample_agent [sample_result "error_max_turns"] (Some boom))
                   frozen_clock)
          = chunks
            ++ [ Wire.encode (Wire.error "Query did not complete successfully");
                 ("data: [DONE]" ++ nl ++ nl)%string ]).
Proof.
  split; [reflexivity|]. split; [reflexivity|]. split; [discriminate|].
  split; [reflexivity|].
  intros [chunks E].
  assert (Hin : In Wire.DONE
                  (queue (served (json_gives (js_array [hi]))
                            (sample_agent [sample_result "error_max_turns"] (Some boom))
                            frozen_clock))).
  { rewrite E. apply in_or_app. right. right. left. reflexivity. }
  vm_compute in Hin. destruct Hin as [H|[H|[]]]; discriminate H.
Qed.

(** C7 (amended). When the agent's messages end in a result whose
    subtype is not [success], the loop logs the error with that subtype
    and increments [chat.api.failure] tagged with it, as its last
    telemetry, and the event
    [{type: error, message: Query did not complete successfully}] is the
    last event translated from a message. What follows depends on how
    the iteration ends: the sentinel [data: [DONE]\n\n] when it ends
    without a throw; when it throws, the telemetry and the error event
    [Stream error occurred] of the catch clause, and no sentinel. *)
Theorem C7_failure_result (ms : list MessageInput) (m : MessageInput)
    (query : string -> Options -> AgentRun) (clock : nat -> Z)
    (earlier : list SDKMessage) (r : SDKMessage) :
  lastUserMessage ms = Some m ->
  let run := query (fullPrompt ms m) query_options in
  let w := served (json_gives (js_array ms)) query clock in
  yields run = earlier ++ [r] ->
  type r = "result" ->
  subtype r <> "success" ->
  (exists before,
     sink w
     = before
       ++ [ log error "Chat query did not complete successfully"
              [("subtype", a_string (subtype r))];
            count "chat.api.failure" 1 [("subtype", a_string (subtype r))] ]
       ++ match raises run with
          | None => []
          | Some e =>
              stream_error_signals e
                (Z.of_nat (List.length (flat_map tool_invocations (yields run))))
                (Z.of_nat (List.length (text_deltas (yields run))))
          end)
  /\ queue w
     = map Wire.encode (translate_all earlier)
       ++ [ ("data: {" ++ Wire.lit "type" ++ ":" ++ Wire.lit "error" ++ ","
             ++ Wire.lit "message" ++ ":"
             ++ Wire.lit "Query did not complete successfully" ++ "}"
             ++ nl ++ nl)%string;
            match raises run with
            | None => ("data: [DONE]" ++ nl ++ nl)%string
            | Some _ => Wire.encode (Wire.error "Stream error occurred")
            end ]
  /\ (raises run <> None -> ~ In ("data: [DONE]" ++ nl ++ nl)%string (queue w)).
Proof.
  intros H run w Hy Ht Hs.
  assert (Hf : failure_result r = true).
  { unfold failure_result. rewrite Ht. cbn [String.eqb Ascii.eqb Bool.eqb andb].
    now destruct (String.eqb_spec (subtype r) "success"). }
  assert (Hn : success_result r = false).
  { unfold success_result. rewrite Ht. cbn [String.eqb Ascii.eqb Bool.eqb andb].
    now destruct (String.eqb_spec (subtype r) "success"). }
  assert (Hq : queue w
               = map Wire.encode (translate_all earlier)
                 ++ [Wire.encode Wire.query_failed; last_chunk (raises run)]).
  { unfold w. rewrite (served_accepts ms m) by assumption. fold run.
    rewrite queue_finished. fold run. rewrite Hy, translate_all_app, map_app.
    unfold translate_all at 2. cbn [flat_map queue accepted app].
    rewrite translate_failure by assumption. rewrite app_nil_r, <- app_assoc.
    reflexivity. }
  split; [|split].
  - unfold w. rewrite (served_accepts ms m) by assumption. fold run.
    unfold finished. fold run.
    set (w' := after_messages (clock 0%nat) (clock 1%nat) (yields run)
                 (accepted ms m clock)).
    assert (Htools : toolsUsedCount w'
                     = Z.of_nat (List.length (flat_map tool_invocations (yields run))))
      by (unfold w'; now rewrite toolsUsedCount_after_messages).
    assert (Htexts : textChunksCount w'
                     = Z.of_nat (List.length (text_deltas (yields run))))
      by (unfold w'; now rewrite textChunksCount_after_messages).
    assert (Hsink : exists before,
               sink w' = before ++ failure_signals (subtype r)).
    { unfold w'. rewrite Hy, after_messages_app, after_messages_one.
      cbn [sink after_message].
      rewrite result_invokes_no_tool, Hf, Hn by assumption.
      cbn [flat_map app]. eexists. reflexivity. }
    destruct Hsink as [before Hb]. exists before.
    destruct (raises run); cbn [sink toolsUsedCount textChunksCount];
      rewrite Hb, ?Htools, ?Htexts; unfold failure_signals;
      now rewrite <- ?app_assoc, ?app_nil_r.
  - rewrite Hq. unfold last_chunk. now destruct (raises run).
  - intros Hr. rewrite Hq, in_app_iff, in_map_iff.
    intros [[ev [Hev _]]|[Hl|[Hl|[]]]].
    + now apply (encode_not_DONE ev).
    + discriminate Hl.
    + unfold last_chunk in Hl. destruct (raises run); [discriminate Hl|].
      now apply Hr.
Qed.

Lemma C7_failure_result_witness :
  lastUserMessage [hi] = Some hi
  /\ queue (served (json_gives (js_array [hi]))
              (sample_agent [sample_text "Hm"; sample_result "error_max_turns"] None)
              frozen_clock)
     = [ Wire.encode (Wire.text_delta "Hm");
         ("data: {" ++ Wire.lit "type" ++ ":" ++ Wire.lit "error" ++ ","
          ++ Wire.lit "message" ++ ":"
          ++ Wire.lit "Query did not complete successfully" ++ "}"
          ++ nl ++ nl)%string;
         ("data: [DONE]" ++ nl ++ nl)%string ].
Proof.
  split; [reflexivity|].
  assert (F : subtype (sample_result "error_max_turns") <> "success")
    by discriminate.
  pose proof (C7_failure_result [hi] hi
                (sample_agent [sample_text "Hm"; sample_result "error_max_turns"] None)
                frozen_clock [sample_text "Hm"] (sample_result "error_max_turns")
                eq_refl eq_refl eq_refl F) as W.
  destruct W as [_ [W _]].
  vm_compute in W. vm_compute. exact W.
Defined.

(** ** Error payloads *)

Lemma alike_translate a b : alike a b -> translate a = translate b.
Proof.
  intros [->|[Ha Hb]]; [reflexivity|].
  now rewrite !translate_failure.
Qed.

Lemma alike_translate_all a b :
  Forall2 alike a b -> translate_all a = translate_all b.
Proof.
  unfold translate_all. induction 1 as [|x y a b Hxy _ IH]; cbn [flat_map];
    [reflexivity|].
  now rewrite (alike_translate x y), IH.
Qed.

Lemma same_ending_last_chunk a b : same_ending a b -> last_chunk a = last_chunk b.
Proof. now destruct a, b. Qed.

Lemma error_events_translated ms e :
  In e (translate_all ms) -> Wire.is_error e = true -> e = Wire.query_failed.
Proof.
  intros Hin He.
  assert (Hf : In e (filter Wire.is_error (translate_all ms)))
    by (apply filter_In; now split).
  rewrite errors_translated in Hf. apply in_map_iff in Hf.
  now destruct Hf as (_ & <- & _).
Qed.

(** C9. What a caller sees of an error is a constant. A request that
    throws before streaming is answered 500 with one fixed body, whatever
    was thrown, while the thrown message and stack go to the error log.
    Inside a stream, every [error] event is one of two fixed events. And
    two runs that differ only in the subtypes of failed results and in the
    values thrown give the same response and the same stream. *)
Theorem C9_errors_do_not_leak :
  (forall (e : thrown) (query : string -> Options -> AgentRun) (clock : nat -> Z),
     response_of (json_throws e) query clock
     = returned (json_error 500
         "Failed to process chat request. Check server logs for details.")
     /\ queue (served (json_throws e) query clock) = []
     /\ In (log error "Chat API error"
              [("error", a_string match e with
                                  | Error_object message _ => message
                                  | not_an_Error => "Unknown error"
                                  end);
               ("stack", match e with
                         | Error_object _ (Some stack) => a_string stack
                         | _ => a_undefined
                         end)])
           (sink (served (json_throws e) query clock)))
  /\ (forall (ms : list MessageInput) (m : MessageInput)
        (query : string -> Options -> AgentRun) (clock : nat -> Z) (chunk : string),
        lastUserMessage ms = Some m ->
        In chunk (queue (served (json_gives (js_array ms)) query clock)) ->
        Wire.has_type "error" chunk = true ->
        chunk = Wire.encode (Wire.error "Query did not complete successfully")
        \/ chunk = Wire.encode (Wire.error "Stream error occurred"))
  /\ (forall (ms : list MessageInput) (m : MessageInput)
        (query1 query2 : string -> Options -> AgentRun) (clock1 clock2 : nat -> Z),
        lastUserMessage ms = Some m ->
        Forall2 alike (yields (query1 (fullPrompt ms m) query_options))
                      (yields (query2 (fullPrompt ms m) query_options)) ->
        same_ending (raises (query1 (fullPrompt ms m) query_options))
                    (raises (query2 (fullPrompt ms m) query_options)) ->
        response_of (json_gives (js_array ms)) query1 clock1
        = response_of (json_gives (js_array ms)) query2 clock2
        /\ queue (served (json_gives (js_array ms)) query1 clock1)
           = queue (served (json_gives (js_array ms)) query2 clock2)).
Proof.
  split; [|split].
  - intros e query clock. split; [reflexivity|]. split; [reflexivity|].
    cbn. auto.
  - intros ms m query clock chunk H Hin Hty.
    rewrite (served_accepts ms m) in Hin by assumption.
    rewrite queue_finished in Hin. cbn [queue accepted app] in Hin.
    apply in_app_iff in Hin. destruct Hin as [Hin|[<-|[]]].
    + apply in_map_iff in Hin. destruct Hin as (e & <- & Hin).
      rewrite has_type_error in Hty.
      left. now rewrite (error_events_translated _ e Hin Hty).
    + unfold last_chunk in *.
      destruct (raises (query (fullPrompt ms m) query_options)).
      * now right.
      * now rewrite has_type_DONE in Hty.
  - intros ms m query1 query2 clock1 clock2 H Hy He. split.
    + now rewrite !(response_accepts ms m).
    + rewrite !(served_accepts ms m) by assumption.
      rewrite !queue_finished. cbn [queue accepted app].
      now rewrite (alike_translate_all _ _ Hy), (same_ending_last_chunk _ _ He).
Qed.

Lemma C9_errors_do_not_leak_witness :
  Forall2 alike [sample_text "Hm"; sample_result "error_max_turns"]
                [sample_text "Hm"; sample_result "error_during_execution"]
  /\ queue (served (json_gives (js_array [hi]))
              (sample_agent [sample_text "Hm"; sample_result "error_max_turns"]
                 (Some boom))
              frozen_clock)
     = queue (served (json_gives (js_array [hi]))
                (sample_agent [sample_text "Hm"; sample_result "error_during_execution"]
                   (Some not_an_Error))
                (fun n => Z.of_nat n)).
Proof.
  assert (A : Forall2 alike [sample_text "Hm"; sample_result "error_max_turns"]
                [sample_text "Hm"; sample_result "error_during_execution"]).
  { constructor; [now left|]. constructor; [|constructor].
    right. split; reflexivity. }
  split; [exact A|].
  apply (proj2 (proj2 C9_errors_do_not_leak) [hi] hi
           (sample_agent [sample_text "Hm"; sample_result "error_max_turns"]
              (Some boom))
           (sample_agent [sample_text "Hm"; sample_result "error_during_execution"]
              (Some not_an_Error))
           frozen_clock (fun n => Z.of_nat n) eq_refl A I).
Defined.

(** ** Several results in one run *)

(** C10. The loop goes on after a result: the stream holds one [done]
    event per successful result yielded and one [Query did not complete
    successfully] event per failed result, wherever they stand among the
    messages, besides the error event of a throw; after an iteration that
    ends without a throw the sentinel comes once, last. A run with three
    results shows two [done] events and an error event before the
    sentinel. *)
Theorem C10_results_do_not_stop_the_loop :
  (forall (ms : list MessageInput) (m : MessageInput)
      (query : string -> Options -> AgentRun) (clock : nat -> Z),
      lastUserMessage ms = Some m ->
      let run := query (fullPrompt ms m) query_options in
      let w := served (json_gives (js_array ms)) query clock in
      filter (Wire.has_type "done") (queue w)
        = map (fun _ => Wire.encode Wire.done) (filter success_result (yields run))
      /\ filter (Wire.has_type "error") (queue w)
         = map (fun _ => Wire.encode (Wire.error "Query did not complete successfully"))
             (filter failure_result (yields run))
           ++ match raises run with
              | None => []
              | Some _ => [Wire.encode (Wire.error "Stream error occurred")]
              end
      /\ (raises run = None ->
          exists chunks, queue w = chunks ++ [Wire.DONE] /\ ~ In Wire.DONE chunks))
  /\ queue (served (json_gives (js_array [hi]))
              (sample_agent [sample_result "success"; sample_text "more";
                             sample_result "error_max_turns";
                             sample_result "success"] None)
              frozen_clock)
     = [ Wire.encode Wire.done;
         Wire.encode (Wire.text_delta "more");
         Wire.encode (Wire.error "Query did not complete successfully");
         Wire.encode Wire.done;
         Wire.DONE ].
Proof.
  split; [|reflexivity].
  intros ms m query clock H run w.
  assert (Hq : queue w = map Wire.encode (translate_all (yields run))
                           ++ [last_chunk (raises run)]).
  { unfold w. rewrite (served_accepts ms m) by assumption.
    now rewrite queue_finished. }
  split; [|split].
  - rewrite Hq, filter_app, (filter_encoded _ _ _ has_type_done), dones_translated,
      map_map.
    unfold last_chunk. destruct (raises run); cbn [filter]; now rewrite app_nil_r.
  - rewrite Hq, filter_app, (filter_encoded _ _ _ has_type_error), errors_translated,
      map_map.
    unfold last_chunk. now destruct (raises run).
  - intros E. rewrite Hq, E. eexists. split; [reflexivity|].
    rewrite in_map_iff. intros (e & He & _). now apply (encode_not_DONE e).
Qed.

Lemma C10_results_do_not_stop_the_loop_witness :
  lastUserMessage [hi] = Some hi
  /\ filter (Wire.has_type "done")
       (queue (served (json_gives (js_array [hi]))
                 (sample_agent [sample_result "success"; sample_result "success"] None)
                 frozen_clock))
     = [Wire.encode Wire.done; Wire.encode Wire.done].
Proof.
  split; [reflexivity|].
  pose proof (proj1 C10_results_do_not_stop_the_loop [hi] hi
                (sample_agent [sample_result "success"; sample_result "success"] None)
                frozen_clock eq_refl) as W.
  cbv zeta in W. destruct W as [W _].
  vm_compute in W. vm_compute. exact W.
Defined.

(** * Further properties of the handler *)

(** ** The three refusals and the acceptance *)

Lemma pop_None {A : Type} (l : list A) : pop l = None -> l = [].
Proof.
  induction l as [|x l IH]; [reflexivity|].
  cbn [pop]. destruct l as [|y l]; [discriminate|].
  intros H. now specialize (IH H).
Qed.

Lemma lastUserMessage_None ms :
  lastUserMessage ms = None <-> has_user_turn ms = false.
Proof.
  unfold lastUserMessage, has_user_turn. split.
  - intros H. apply pop_None in H.
    induction ms as [|x ms IH]; [reflexivity|].
    cbn [filter existsb] in *.
    destruct (Role_eqb (role x) user); [discriminate H | now apply IH].
  - intros H.
    induction ms as [|x ms IH]; [reflexivity|].
    cbn [filter existsb] in *.
    destruct (Role_eqb (role x) user); [discriminate H | now apply IH].
Qed.

Lemma assistant_turns_only ms :
  Forall (fun x => role x = assistant) ms -> has_user_turn ms = false.
Proof.
  unfold has_user_turn. induction 1 as [|x ms R _ IH]; [reflexivity|].
  cbn [existsb]. now rewrite R, IH.
Qed.

Lemma POST_throws e query clock :
  POST (json_throws e) query (boot clock)
  = (returned (json_error 500
       "Failed to process chat request. Check server logs for details."),
     mk_world
       [ log error "Chat API error"
           [("error", a_string match e with
                               | Error_object message _ => message
                               | not_an_Error => "Unknown error"
                               end);
            ("stack", match e with
                      | Error_object _ (Some stack) => a_string stack
                      | _ => a_undefined
                      end)];
         count "chat.api.error" 1 [("error_type", a_string "api_error")];
         distribution "chat.api.duration" (clock 1%nat - clock 0%nat) "millisecond"
           [("status", a_string "error")] ]
       clock 2%nat 0 0 [] false).
Proof. reflexivity. Qed.

Lemma POST_invalid_messages messages query clock :
  Array_isArray messages = false ->
  POST (json_gives messages) query (boot clock)
  = (returned (json_error 400 "Messages array is required"),
     mk_world
       [ count "chat.api.request" 1 [("endpoint", a_string "/api/chat")];
         log info "Chat API request received"
           [("messageCount", length_or_0 messages)];
         log warn "Invalid request: messages array missing or invalid" [];
         count "chat.api.error" 1 [("error_type", a_string "invalid_messages")] ]
       clock 1%nat 0 0 [] false).
Proof.
  intros H. unfold POST, boot, request_json. run_step.
  rewrite H. cbn [negb]. now rewrite orb_true_r.
Qed.

Lemma POST_no_user_message ms query clock :
  lastUserMessage ms = None ->
  POST (json_gives (js_array ms)) query (boot clock)
  = (returned (json_error 400 "No user message found"),
     mk_world
       [ count "chat.api.request" 1 [("endpoint", a_string "/api/chat")];
         log info "Chat API request received"
           [("messageCount", a_number (Z.of_nat (List.length ms)))];
         log warn "Invalid request: no user message found" [];
         count "chat.api.error" 1 [("error_type", a_string "no_user_message")] ]
       clock 1%nat 0 0 [] false).
Proof.
  intros H. unfold POST, boot, request_json. run_step.
  cbn [truthy Array_isArray negb orb elements_of length_or_0]. now rewrite H.
Qed.

(** A message list without a user turn, the empty one included, is
    refused by the guard of lines 53-62: status 400, the body
    [No user message found], one warning and one [chat.api.error]
    increment tagged [no_user_message] after the two signals of request
    entry, and no stream. *)
Theorem no_user_turn_refused (ms : list MessageInput)
    (query : string -> Options -> AgentRun) (clock : nat -> Z) :
  Forall (fun x => role x = assistant) ms ->
  response_of (json_gives (js_array ms)) query clock
  = returned (json_error 400 "No user message found")
  /\ sink (served (json_gives (js_array ms)) query clock)
     = [ count "chat.api.request" 1 [("endpoint", a_string "/api/chat")];
         log info "Chat API request received"
           [("messageCount", a_number (Z.of_nat (List.length ms)))];
         log warn "Invalid request: no user message found" [];
         count "chat.api.error" 1 [("error_type", a_string "no_user_message")] ]
  /\ queue (served (json_gives (js_array ms)) query clock) = []
  /\ closed (served (json_gives (js_array ms)) query clock) = false.
Proof.
  intros H. apply assistant_turns_only, lastUserMessage_None in H.
  unfold response_of, served. rewrite (POST_no_user_message ms query clock H).
  repeat split.
Qed.

Lemma no_user_turn_refused_witness :
  Forall (fun x => role x = assistant) [yo; yo]
  /\ response_of (json_gives (js_array [yo; yo])) (sample_agent [] None) frozen_clock
     = returned (json_error 400 "No user message found").
Proof.
  assert (F : Forall (fun x => role x = assistant) [yo; yo])
    by (repeat constructor).
  split; [exact F|].
  exact (proj1 (no_user_turn_refused [yo; yo] (sample_agent [] None) frozen_clock F)).
Defined.

(** The response by kind of request, where a [messages] array holds
    turns of the declared type [MessageInput] (role user or assistant,
    content a string). These four cases cover every such request, and in
    each the handler returns a response rather than throwing: the fixed
    500 JSON body when reading the body throws; the 400 body
    [Messages array is required] when [messages] is not an array; the
    400 body [No user message found] when the array holds no user turn;
    and the 200 event-stream response when it holds one, whatever the
    agent then does. *)
Theorem responses_by_request :
  (forall (e : thrown) (query : string -> Options -> AgentRun) (clock : nat -> Z),
     response_of (json_throws e) query clock
     = returned (json_error 500
         "Failed to process chat request. Check server logs for details."))
  /\ (forall (messages : js_value) (query : string -> Options -> AgentRun)
        (clock : nat -> Z),
        Array_isArray messages = false ->
        response_of (json_gives messages) query clock
        = returned (json_error 400 "Messages array is required"))
  /\ (forall (ms : list MessageInput) (query : string -> Options -> AgentRun)
        (clock : nat -> Z),
        has_user_turn ms = false ->
        response_of (json_gives (js_array ms)) query clock
        = returned (json_error 400 "No user message found"))
  /\ (forall (ms : list MessageInput) (query : string -> Options -> AgentRun)
        (clock : nat -> Z),
        has_user_turn ms = true ->
        response_of (json_gives (js_array ms)) query clock = returned streaming).
Proof.
  unfold response_of. split; [|split; [|split]].
  - intros e query clock. now rewrite POST_throws.
  - intros messages query clock A. now rewrite POST_invalid_messages.
  - intros ms query clock U. apply lastUserMessage_None in U.
    now rewrite POST_no_user_message.
  - intros ms query clock U.
    destruct (lastUserMessage ms) as [m|] eqn:L.
    + now rewrite (POST_accepts ms m).
    + apply lastUserMessage_None in L. congruence.
Qed.

Lemma responses_by_request_witness :
  response_of (json_gives (js_object (js_number (whole 5)))) (sample_agent [] None)
    frozen_clock
  = returned (json_error 400 "Messages array is required")
  /\ response_of (json_gives (js_array [yo])) (sample_agent [] None) frozen_clock
     = returned (json_error 400 "No user message found")
  /\ response_of (json_gives (js_array [yo; hi; yo])) (sample_agent [] (Some boom))
       frozen_clock
     = returned streaming.
Proof.
  split; [|split].
  - apply (proj1 (proj2 responses_by_request)). reflexivity.
  - apply (proj1 (proj2 (proj2 responses_by_request))). reflexivity.
  - apply (proj2 (proj2 (proj2 responses_by_request))). reflexivity.
Defined.

(** ** Request metrics *)

Lemma other_metric metric name :
  stream_metric metric = false ->
  In name [ "chat.tool.invocation"; "chat.api.success"; "chat.api.duration";
            "chat.stream.chunks"; "chat.tools.count"; "chat.api.failure";
            "chat.stream.error" ] ->
  (name === metric) = false.
Proof.
  unfold stream_metric. intros H Hin.
  destruct (name === metric) eqn:E; [|reflexivity].
  apply String.eqb_eq in E. subst metric.
  assert (X : existsb (String.eqb name)
                [ "chat.tool.invocation"; "chat.api.success"; "chat.api.duration";
                  "chat.stream.chunks"; "chat.tools.count"; "chat.api.failure";
                  "chat.stream.error" ] = true).
  { apply existsb_exists. exists name. split; [assumption | apply String.eqb_refl]. }
  congruence.
Qed.

Lemma filter_tool_signals_other metric tools :
  ("chat.tool.invocation" === metric) = false ->
  filter (is_metric metric) (flat_map tool_signals tools) = [].
Proof.
  intros H. induction tools as [|t tools IH]; [reflexivity|].
  cbn [flat_map tool_signals app filter is_metric]. now rewrite H.
Qed.

Lemma request_metric_after_message metric t0 t1 m w :
  stream_metric metric = false ->
  filter (is_metric metric) (sink (after_message t0 t1 m w))
  = filter (is_metric metric) (sink w).
Proof.
  intros H. cbn [sink after_message]. rewrite !filter_app.
  rewrite filter_tool_signals_other by (apply other_metric; cbn; auto).
  destruct (success_result m), (failure_result m);
    cbn [filter completion_signals failure_signals is_metric app];
    rewrite ?(other_metric metric "chat.api.success" H),
      ?(other_metric metric "chat.api.duration" H),
      ?(other_metric metric "chat.stream.chunks" H),
      ?(other_metric metric "chat.tools.count" H),
      ?(other_metric metric "chat.api.failure" H) by (cbn; auto 10);
    now rewrite ?app_nil_r.
Qed.

Lemma request_metric_after_messages metric t0 t1 ms : forall w,
  stream_metric metric = false ->
  filter (is_metric metric) (sink (after_messages t0 t1 ms w))
  = filter (is_metric metric) (sink w).
Proof.
  induction ms as [|m ms IH]; intros w H; cbn [after_messages fold_left];
    [reflexivity|].
  fold (after_messages t0 t1 ms (after_message t0 t1 m w)).
  now rewrite IH, request_metric_after_message.
Qed.

Lemma request_metric_finished metric t0 t1 run w :
  stream_metric metric = false ->
  filter (is_metric metric) (sink (finished t0 t1 run w))
  = filter (is_metric metric) (sink w).
Proof.
  intros H. unfold finished. destruct (raises run); cbn [sink].
  - rewrite filter_app, request_metric_after_messages by assumption.
    cbn [filter stream_error_signals is_metric].
    rewrite (other_metric metric "chat.stream.error" H) by (cbn; auto 10).
    now rewrite app_nil_r.
  - now apply request_metric_after_messages.
Qed.

(** The two request counters by kind of request, where a [messages]
    array holds turns of the declared type [MessageInput].
    [chat.api.request] is incremented once whenever the body is read,
    and not when reading it throws. [chat.api.error] is incremented once
    per refusal, tagged [api_error], [invalid_messages] or
    [no_user_message] by its cause; for an array holding a user turn it
    is never incremented, whatever the agent yields and however its
    iteration ends: a failure inside the stream is counted under the
    stream's own metrics. *)
Theorem request_and_error_counters :
  (forall (e : thrown) (query : string -> Options -> AgentRun) (clock : nat -> Z),
     filter (is_metric "chat.api.request") (sink (served (json_throws e) query clock))
     = []
     /\ filter (is_metric "chat.api.error") (sink (served (json_throws e) query clock))
        = [count "chat.api.error" 1 [("error_type", a_string "api_error")]])
  /\ (forall (messages : js_value) (query : string -> Options -> AgentRun)
        (clock : nat -> Z),
        Array_isArray messages = false ->
        filter (is_metric "chat.api.request")
          (sink (served (json_gives messages) query clock))
        = [count "chat.api.request" 1 [("endpoint", a_string "/api/chat")]]
        /\ filter (is_metric "chat.api.error")
             (sink (served (json_gives messages) query clock))
           = [count "chat.api.error" 1 [("error_type", a_string "invalid_messages")]])
  /\ (forall (ms : list MessageInput) (query : string -> Options -> AgentRun)
        (clock : nat -> Z),
        has_user_turn ms = false ->
        filter (is_metric "chat.api.request")
          (sink (served (json_gives (js_array ms)) query clock))
        = [count "chat.api.request" 1 [("endpoint", a_string "/api/chat")]]
        /\ filter (is_metric "chat.api.error")
             (sink (served (json_gives (js_array ms)) query clock))
           = [count "chat.api.error" 1 [("error_type", a_string "no_user_message")]])
  /\ (forall (ms : list MessageInput) (query : string -> Options -> AgentRun)
        (clock : nat -> Z),
        has_user_turn ms = true ->
        filter (is_metric "chat.api.request")
          (sink (served (json_gives (js_array ms)) query clock))
        = [count "chat.api.request" 1 [("endpoint", a_string "/api/chat")]]
        /\ filter (is_metric "chat.api.error")
             (sink (served (json_gives (js_array ms)) query clock))
           = []).
Proof.
  unfold served. split; [|split; [|split]].
  - intros e query clock. rewrite POST_throws. split; reflexivity.
  - intros messages query clock A. rewrite POST_invalid_messages by assumption.
    split; reflexivity.
  - intros ms query clock U. apply lastUserMessage_None in U.
    rewrite POST_no_user_message by assumption. split; reflexivity.
  - intros ms query clock U.
    destruct (lastUserMessage ms) as [m|] eqn:L.
    + rewrite (POST_accepts ms m) by assumption. cbn [snd].
      rewrite !request_metric_finished by reflexivity. split; reflexivity.
    + apply lastUserMessage_None in L. congruence.
Qed.

Lemma request_and_error_counters_witness :
  filter (is_metric "chat.api.error")
    (sink (served (json_gives (js_array [hi]))
             (sample_agent [sample_result "error_max_turns"] (Some boom))
             frozen_clock))
  = []
  /\ filter (is_metric "chat.api.error")
       (sink (served (json_gives js_null) (sample_agent [] None) frozen_clock))
     = [count "chat.api.error" 1 [("error_type", a_string "invalid_messages")]].
Proof.
  split.
  - apply (proj2 (proj2 (proj2 request_and_error_counters)) [hi]
             (sample_agent [sample_result "error_max_turns"] (Some boom))
             frozen_clock).
    reflexivity.
  - apply (proj1 (proj2 request_and_error_counters) js_null (sample_agent [] None)
             frozen_clock).
    reflexivity.
Defined.

(** ** The agent runtime as a collaborator *)

(** The handler consults the agent runtime only for an accepted request,
    and then only at the composed prompt with the fixed options: two
    runtimes that agree there are served alike, from any state; a refused
    request is served without the runtime. *)
Theorem agent_consulted_at_composed_prompt (request : Request)
    (query1 query2 : string -> Options -> AgentRun) (w : world) :
  (forall ms m,
     request = json_gives (js_array ms) ->
     lastUserMessage ms = Some m ->
     query1 (fullPrompt ms m) query_options = query2 (fullPrompt ms m) query_options) ->
  POST request query1 w = POST request query2 w.
Proof.
  intros H. destruct w as [sk ck rd tu tc qu cl].
  destruct request as [e|messages]; unfold POST, request_json; run_step;
    [reflexivity|].
  destruct (negb (truthy messages) || negb (Array_isArray messages)) eqn:G;
    [reflexivity|].
  destruct messages; cbn [truthy Array_isArray negb orb] in G;
    rewrite ?orb_true_r in G; try discriminate G.
  cbn [elements_of]. destruct (lastUserMessage elements) as [m|] eqn:L;
    [|reflexivity].
  rewrite !start_finished, (H elements m eq_refl L). reflexivity.
Qed.

Lemma agent_consulted_at_composed_prompt_witness :
  POST (json_gives (js_array [hi]))
    (sample_agent [sample_text "Hello"; sample_result "success"] None)
    (boot frozen_clock)
  = POST (json_gives (js_array [hi]))
      (agent_for (fullPrompt [hi] hi)
         {| yields := [sample_text "Hello"; sample_result "success"];
            raises := None |})
      (boot frozen_clock).
Proof.
  apply (agent_consulted_at_composed_prompt (json_gives (js_array [hi]))
           (sample_agent [sample_text "Hello"; sample_result "success"] None)
           (agent_for (fullPrompt [hi] hi)
              {| yields := [sample_text "Hello"; sample_result "success"];
                 raises := None |})
           (boot frozen_clock)).
  intros ms m E L. injection E as <-. injection L as <-.
  unfold agent_for, sample_agent. now rewrite String.eqb_refl.
Defined.

(** ** What the loop does with each kind of message *)





(** A message that is not a streaming text delta, holds no tool
    invocation block, and is neither a progress notice nor a result
    changes nothing: no chunk, no telemetry, no counter, no clock read.
    This covers unknown types, stream events other than text deltas,
    and assistant messages made of text blocks only. *)
Theorem unhandled_message_ignored (t0 t1 : Z) (msg : SDKMessage) (w : world) :
  streaming_text_delta msg = None ->
  tool_invocations msg = [] ->
  type msg <> "tool_progress" ->
  type msg <> "result" ->
  on_message t0 t1 msg w = (returned tt, w).
Proof.
  intros Hd Ht Hp Hr. rewrite on_message_after.
  unfold after_message, translate, tool_progress_notice, success_result,
    failure_result.
  rewrite Hd, Ht.
  apply String.eqb_neq in Hp, Hr. rewrite Hp, Hr.
  cbn [andb flat_map List.length Z.of_nat map app].
  rewrite !app_nil_r, !Z.add_0_r. now rewrite <- world_eta.
Qed.

Lemma unhandled_message_ignored_witness :
  on_message 0 0
    {| type := "assistant"; event := None;
       message_content := Some [{| block_type := "text"; name := "" |}];
       tool_name := ""; elapsed_time_seconds := whole 0; subtype := "" |}
    (boot frozen_clock)
  = (returned tt, boot frozen_clock)
  /\ on_message 0 0 sample_other (boot frozen_clock) = (returned tt, boot frozen_clock).
Proof.
  split.
  - apply (unhandled_message_ignored 0 0
             {| type := "assistant"; event := None;
                message_content := Some [{| block_type := "text"; name := "" |}];
                tool_name := ""; elapsed_time_seconds := whole 0; subtype := "" |}
             (boot frozen_clock)); try reflexivity; discriminate.
  - apply (unhandled_message_ignored 0 0 sample_other (boot frozen_clock));
      try reflexivity; discriminate.
Defined.

(** ** Telemetry of a stream *)

Lemma clock_after_messages t0 t1 ms : forall w,
  clock (after_messages t0 t1 ms w) = clock w.
Proof.
  induction ms as [|m ms IH]; intros w; cbn [after_messages fold_left];
    [reflexivity|].
  fold (after_messages t0 t1 ms (after_message t0 t1 m w)). now rewrite IH.
Qed.

Lemma reads_after_messages t0 t1 ms : forall w,
  reads (after_messages t0 t1 ms w)
  = (reads w + 2 * List.length (filter success_result ms))%nat.
Proof.
  induction ms as [|m ms IH]; intros w; cbn [after_messages fold_left filter].
  - cbn [List.length]. lia.
  - fold (after_messages t0 t1 ms (after_message t0 t1 m w)). rewrite IH.
    cbn [reads after_message]. destruct (success_result m); cbn [List.length]; lia.
Qed.

Lemma sink_after_messages t0 t1 ms : forall w,
  exists signals, sink (after_messages t0 t1 ms w) = sink w ++ signals.
Proof.
  induction ms as [|m ms IH]; intros w; cbn [after_messages fold_left].
  - exists []. now rewrite app_nil_r.
  - fold (after_messages t0 t1 ms (after_message t0 t1 m w)).
    destruct (IH (after_message t0 t1 m w)) as [s Hs]. rewrite Hs.
    cbn [sink after_message]. eexists. now rewrite <- app_assoc.
Qed.

Lemma sink_finished t0 t1 run w :
  exists signals,
    sink (finished t0 t1 run w)
    = sink (after_messages t0 t1 (yields run) w) ++ signals.
Proof.
  unfold finished. destruct (raises run); cbn [sink].
  - eexists. reflexivity.
  - exists []. now rewrite app_nil_r.
Qed.

Lemma success_of_result r :
  type r = "result" -> subtype r = "success" ->
  success_result r = true /\ failure_result r = false.
Proof. unfold success_result, failure_result. now intros -> ->. Qed.

(** A successful result, wherever it stands among the messages, is
    logged with the counters as they are then: [toolsUsed] is the number
    of tool invocation blocks and [textChunks] the number of streaming
    text deltas yielded before it, and both are sampled in
    [chat.tools.count] and [chat.stream.chunks]. Its total duration runs
    from the clock read at request entry and its stream duration from
    the read at stream start, each to a fresh read. *)
Theorem completion_records_counters (ms : list MessageInput) (m : MessageInput)
    (query : string -> Options -> AgentRun) (ticks : nat -> Z)
    (earlier later : list SDKMessage) (r : SDKMessage) :
  lastUserMessage ms = Some m ->
  yields (query (fullPrompt ms m) query_options) = earlier ++ r :: later ->
  type r = "result" ->
  subtype r = "success" ->
  let k := (2 + 2 * List.length (filter success_result earlier))%nat in
  exists before after,
    sink (served (json_gives (js_array ms)) query ticks)
    = before
      ++ completion_signals (ticks k - ticks 0%nat) (ticks (S k) - ticks 1%nat)
           (Z.of_nat (List.length (flat_map tool_invocations earlier)))
           (Z.of_nat (List.length (text_deltas earlier)))
      ++ after.
Proof.
  intros H Hy Ht Hs k.
  rewrite (served_accepts ms m) by assumption.
  destruct (sink_finished (ticks 0%nat) (ticks 1%nat)
              (query (fullPrompt ms m) query_options) (accepted ms m ticks))
    as [s1 ->].
  rewrite Hy, after_messages_app.
  change (r :: later) with ([r] ++ later).
  rewrite after_messages_app, after_messages_one.
  set (w1 := after_messages (ticks 0%nat) (ticks 1%nat) earlier (accepted ms m ticks)).
  destruct (sink_after_messages (ticks 0%nat) (ticks 1%nat) later
              (after_message (ticks 0%nat) (ticks 1%nat) r w1)) as [s2 ->].
  destruct (success_of_result r Ht Hs) as [S F].
  cbn [sink after_message]. rewrite S, F.
  rewrite result_invokes_no_tool, result_is_no_text_delta by assumption.
  cbn [flat_map List.length Z.of_nat app]. rewrite !Z.add_0_r, app_nil_r.
  unfold w1.
  rewrite clock_after_messages, reads_after_messages,
    toolsUsedCount_after_messages, textChunksCount_after_messages.
  cbn [clock reads toolsUsedCount textChunksCount accepted]. fold k.
  exists (sink (after_messages (ticks 0%nat) (ticks 1%nat) earlier
                  (accepted ms m ticks))), (s2 ++ s1).
  now rewrite <- !app_assoc.
Qed.

Lemma completion_records_counters_witness :
  lastUserMessage [hi] = Some hi
  /\ exists before after,
       sink (served (json_gives (js_array [hi]))
               (sample_agent [sample_assistant ["WebSearch"; "Read"];
                              sample_text "Hel"; sample_text "lo";
                              sample_result "success"; sample_other] None)
               (fun n => 10 * Z.of_nat n))
       = before ++ completion_signals 20 20 2 2 ++ after.
Proof.
  split; [reflexivity|].
  exact (completion_records_counters [hi] hi
           (sample_agent [sample_assistant ["WebSearch"; "Read"];
                          sample_text "Hel"; sample_text "lo";
                          sample_result "success"; sample_other] None)
           (fun n => 10 * Z.of_nat n)
           [sample_assistant ["WebSearch"; "Read"]; sample_text "Hel";
            sample_text "lo"]
           [sample_other] (sample_result "success")
           eq_refl eq_refl eq_refl eq_refl).
Defined.

(** When the agent's iteration throws, the catch clause logs the thrown
    message, or [Unknown error] for a value that is not an Error, with
    the counters at the time of the failure: the numbers of tool
    invocation blocks and of streaming text deltas yielded before the
    throw. It increments [chat.stream.error] once, and these two signals
    are the last telemetry of the request. *)
Theorem stream_error_reported (ms : list MessageInput) (m : MessageInput)
    (query : string -> Options -> AgentRun) (clock : nat -> Z) (e : thrown) :
  lastUserMessage ms = Some m ->
  raises (query (fullPrompt ms m) query_options) = Some e ->
  exists before,
    sink (served (json_gives (js_array ms)) query clock)
    = before
      ++ [ log error "Stream processing error"
             [("error", a_string match e with
                                 | Error_object message _ => message
                                 | not_an_Error => "Unknown error"
                                 end);
              ("toolsUsed",
               a_number (Z.of_nat (List.length
                 (flat_map tool_invocations
                    (yields (query (fullPrompt ms m) query_options))))));
              ("textChunks",
               a_number (Z.of_nat (List.length
                 (text_deltas (yields (query (fullPrompt ms m) query_options))))))];
           count "chat.stream.error" 1 [("error_type", a_string "stream_processing")] ].
Proof.
  intros H E. rewrite (served_accepts ms m) by assumption.
  unfold finished. rewrite E. cbn [sink].
  rewrite toolsUsedCount_after_messages, textChunksCount_after_messages.
  cbn [toolsUsedCount textChunksCount accepted]. eexists. reflexivity.
Qed.

Lemma stream_error_reported_witness :
  lastUserMessage [hi] = Some hi
  /\ exists before,
       sink (served (json_gives (js_array [hi]))
               (sample_agent [sample_assistant ["WebSearch"]; sample_text "Hm"]
                  (Some boom))
               frozen_clock)
       = before
         ++ [ log error "Stream processing error"
                [("error", a_string "boom"); ("toolsUsed", a_number 1);
                 ("textChunks", a_number 1)];
              count "chat.stream.error" 1
                [("error_type", a_string "stream_processing")] ].
Proof.
  split; [reflexivity|].
  exact (stream_error_reported [hi] hi
           (sample_agent [sample_assistant ["WebSearch"]; sample_text "Hm"]
              (Some boom))
           frozen_clock boom eq_refl eq_refl).
Defined.

Lemma result_counts_after_messages t0 t1 ms : forall w,
  filter (is_metric "chat.api.success") (sink (after_messages t0 t1 ms w))
  = filter (is_metric "chat.api.success") (sink w)
    ++ map (fun _ => count "chat.api.success" 1 []) (filter success_result ms)
  /\ filter (is_metric "chat.api.failure") (sink (after_messages t0 t1 ms w))
     = filter (is_metric "chat.api.failure") (sink w)
       ++ map (fun r => count "chat.api.failure" 1 [("subtype", a_string (subtype r))])
            (filter failure_result ms).
Proof.
  induction ms as [|x ms IH]; intros w; cbn [after_messages fold_left filter map].
  - now rewrite !app_nil_r.
  - fold (after_messages t0 t1 ms (after_message t0 t1 x w)).
    destruct (IH (after_message t0 t1 x w)) as [-> ->].
    cbn [sink after_message]. rewrite !filter_app.
    rewrite !filter_tool_signals_other by reflexivity.
    destruct (success_result x), (failure_result x);
      cbn [filter completion_signals failure_signals is_metric app map];
      rewrite ?app_nil_r, <- ?app_assoc; split; reflexivity.
Qed.

(** In the telemetry of a stream, [chat.api.success] is incremented once
    per successful result the agent yields, and [chat.api.failure] once
    per result of another subtype, tagged with that subtype, in the
    order of the results. *)
Theorem result_counters (ms : list MessageInput) (m : MessageInput)
    (query : string -> Options -> AgentRun) (clock : nat -> Z) :
  lastUserMessage ms = Some m ->
  filter (is_metric "chat.api.success")
    (sink (served (json_gives (js_array ms)) query clock))
  = map (fun _ => count "chat.api.success" 1 [])
      (filter success_result (yields (query (fullPrompt ms m) query_options)))
  /\ filter (is_metric "chat.api.failure")
       (sink (served (json_gives (js_array ms)) query clock))
     = map (fun r => count "chat.api.failure" 1 [("subtype", a_string (subtype r))])
         (filter failure_result (yields (query (fullPrompt ms m) query_options))).
Proof.
  intros H. rewrite (served_accepts ms m) by assumption.
  unfold finished.
  destruct (result_counts_after_messages (clock 0%nat) (clock 1%nat)
              (yields (query (fullPrompt ms m) query_options)) (accepted ms m clock))
    as [Hs Hf].
  destruct (raises (query (fullPrompt ms m) query_options)); cbn [sink];
    rewrite ?filter_app, Hs, Hf; cbn [filter stream_error_signals is_metric];
    rewrite ?app_nil_r; split; reflexivity.
Qed.

Lemma result_counters_witness :
  lastUserMessage [hi] = Some hi
  /\ filter (is_metric "chat.api.failure")
       (sink (served (json_gives (js_array [hi]))
                (sample_agent [sample_result "error_max_turns"; sample_result "success";
                               sample_result "error_during_execution"] None)
                frozen_clock))
     = [ count "chat.api.failure" 1 [("subtype", a_string "error_max_turns")];
         count "chat.api.failure" 1 [("subtype", a_string "error_during_execution")] ].
Proof.
  split; [reflexivity|].
  pose proof (result_counters [hi] hi
                (sample_agent [sample_result "error_max_turns"; sample_result "success";
                               sample_result "error_during_execution"] None)
                frozen_clock eq_refl) as W.
  destruct W as [_ W]. vm_compute in W. vm_compute. exact W.
Defined.

(** ** Invariants of the stream *)

Lemma clock_finished t0 t1 run w : clock (finished t0 t1 run w) = clock w.
Proof.
  unfold finished. destruct (raises run); cbn [clock]; apply clock_after_messages.
Qed.

(** On a stream that is open, with an agent iteration that ends and
    writes to the controller that succeed, the [start] callback only
    appends: the chunks and the telemetry present before it are a prefix
    of those after it, so nothing already sent is withdrawn, also when
    the iteration throws; at least one chunk is added. It lowers no
    counter, leaves the clock's readings as they are, and the stream is
    closed at its end. *)
Theorem start_only_appends (query : string -> Options -> AgentRun) (prompt : string)
    (requestStartTime streamStartTime : Z) (w : world) :
  closed w = false ->
  exists chunks last signals,
    queue (snd (start query prompt requestStartTime streamStartTime w))
    = queue w ++ chunks ++ [last]
    /\ sink (snd (start query prompt requestStartTime streamStartTime w))
       = sink w ++ signals
    /\ toolsUsedCount w
       <= toolsUsedCount (snd (start query prompt requestStartTime streamStartTime w))
    /\ textChunksCount w
       <= textChunksCount (snd (start query prompt requestStartTime streamStartTime w))
    /\ clock (snd (start query prompt requestStartTime streamStartTime w)) = clock w
    /\ closed (snd (start query prompt requestStartTime streamStartTime w)) = true.
Proof.
  intros _. rewrite start_finished. cbn [snd].
  set (run := query prompt query_options).
  exists (map Wire.encode (translate_all (yields run))), (last_chunk (raises run)).
  destruct (sink_finished requestStartTime streamStartTime run w) as [s1 Hs1].
  destruct (sink_after_messages requestStartTime streamStartTime (yields run) w)
    as [s2 Hs2].
  exists (s2 ++ s1).
  split; [apply queue_finished|].
  split; [now rewrite Hs1, Hs2, app_assoc|].
  split; [|split; [|split; [apply clock_finished | apply closed_finished]]].
  - unfold finished. fold run.
    destruct (raises run); cbn [toolsUsedCount];
      rewrite toolsUsedCount_after_messages; lia.
  - unfold finished. fold run.
    destruct (raises run); cbn [textChunksCount];
      rewrite textChunksCount_after_messages; lia.
Qed.

Lemma start_only_appends_witness :
  closed (accepted [hi] hi frozen_clock) = false
  /\ exists chunks last signals,
       queue (snd (start (sample_agent [sample_text "Hm"] (Some boom)) "prompt" 0 0
                     (accepted [hi] hi frozen_clock)))
       = queue (accepted [hi] hi frozen_clock) ++ chunks ++ [last]
       /\ sink (snd (start (sample_agent [sample_text "Hm"] (Some boom)) "prompt" 0 0
                       (accepted [hi] hi frozen_clock)))
          = sink (accepted [hi] hi frozen_clock) ++ signals.
Proof.
  split; [reflexivity|].
  destruct (start_only_appends (sample_agent [sample_text "Hm"] (Some boom)) "prompt"
              0 0 (accepted [hi] hi frozen_clock) eq_refl)
    as (chunks & last & signals & Hq & Hs & _).
  exists chunks, last, signals. split; assumption.
Defined.

(** ** The shape of the composite prompt *)

Lemma transcript_empty ms :
  (conversationContext ms === "") = match removelast ms with [] => true | _ => false end.
Proof.
  unfold conversationContext.
  destruct (removelast ms) as [|x l]; [reflexivity|].
  cbn [map String.concat]. destruct (map _ l), (role x); reflexivity.
Qed.

(** The heading [Previous conversation:] and the transcript are part of
    the prompt exactly when the list holds more than one message. With
    at most one message the prompt is the system prompt, a blank line
    and the [User: ] line; with more, the transcript is not empty and
    stands under the heading between them. *)
Theorem previous_conversation_heading (ms : list MessageInput) (m : MessageInput) :
  ((List.length ms <= 1)%nat ->
     fullPrompt ms m = (SYSTEM_PROMPT ++ nl ++ nl ++ "User: " ++ content m)%string)
  /\ ((2 <= List.length ms)%nat ->
      conversationContext ms <> ""
      /\ fullPrompt ms m
         = (SYSTEM_PROMPT ++ nl ++ nl ++ "Previous conversation:" ++ nl
            ++ conversationContext ms ++ nl ++ nl ++ "User: " ++ content m)%string).
Proof.
  unfold fullPrompt. split; intros L.
  - rewrite transcript_empty.
    destruct ms as [|x [|y l]]; cbn [List.length] in L; try lia; reflexivity.
  - assert (E : (conversationContext ms === "") = false).
    { rewrite transcript_empty.
      destruct ms as [|x [|y l]]; cbn [List.length] in L; try lia. reflexivity. }
    rewrite E. split; [now apply String.eqb_neq | reflexivity].
Qed.

Lemma previous_conversation_heading_witness :
  fullPrompt [hi] hi = (SYSTEM_PROMPT ++ nl ++ nl ++ "User: " ++ "hi")%string
  /\ fullPrompt [yo; hi] hi
     = (SYSTEM_PROMPT ++ nl ++ nl ++ "Previous conversation:" ++ nl
        ++ "Assistant: yo" ++ nl ++ nl ++ "User: " ++ "hi")%string.
Proof.
  split.
  - apply (proj1 (previous_conversation_heading [hi] hi)). cbn. lia.
  - pose proof (proj2 (previous_conversation_heading [yo; hi] hi)) as W.
    cbn [List.length] in W. specialize (W (le_n 2)). destruct W as [_ W].
    change (conversationContext [yo; hi]) with "Assistant: yo" in W. exact W.
Defined.

Lemma transcript_before_last_user_turn_witness :
  role hi = user
  /\ lastUserMessage ([hi; yo] ++ [hi]) = Some hi
  /\ conversationContext ([hi; yo] ++ [hi])
     = ("User: hi" ++ nl ++ nl ++ "Assistant: yo")%string.
Proof.
  split; [reflexivity|].
  exact (transcript_before_last_user_turn [hi; yo] hi eq_refl).
Defined.

(** ** Framing of the event stream *)

Lemma one_line_app a b : one_line (a ++ b) = one_line a && one_line b.
Proof.
  induction a as [|c a IH]; [reflexivity|].
  cbn [append one_line]. rewrite IH. now rewrite andb_assoc.
Qed.

Lemma one_line_escape_char c : one_line (JSON.escape_char c) = true.
Proof.
  destruct c as [[] [] [] [] [] [] [] []]; reflexivity.
Qed.

Lemma one_line_escape s : one_line (JSON.escape s) = true.
Proof.
  induction s as [|c s IH]; [reflexivity|].
  cbn [JSON.escape]. now rewrite one_line_app, one_line_escape_char.
Qed.

Lemma one_line_quote s : one_line (JSON.quote s) = true.
Proof.
  unfold JSON.quote. now rewrite !one_line_app, one_line_escape.
Qed.

Lemma one_line_digits d : one_line (NilEmpty.string_of_uint d) = true.
Proof. induction d; cbn; auto. Qed.

Lemma one_line_whole i : one_line (NilZero.string_of_int i) = true.
Proof.
  destruct i as [d|d]; cbn [NilZero.string_of_int one_line];
    destruct d; try reflexivity; apply one_line_digits.
Qed.

Lemma one_line_fraction f : one_line (JSON.fraction_text f) = true.
Proof.
  destruct f; try reflexivity; apply (one_line_digits).
Qed.

Lemma one_line_exponent e : one_line (JSON.exponent_text e) = true.
Proof.
  destruct e as [d|d]; destruct d; try reflexivity; apply one_line_digits.
Qed.

Lemma one_line_number n : one_line (JSON.number_text n) = true.
Proof.
  destruct n as [[i f|i f e]| |]; cbn [JSON.number_text]; try reflexivity;
    now rewrite !one_line_app, ?one_line_whole, ?one_line_fraction,
      ?one_line_exponent.
Qed.

Lemma encode_framed e :
  exists payload,
    Wire.encode e = ("data: " ++ payload ++ nl ++ nl)%string
    /\ one_line payload = true.
Proof.
  destruct e as [t|t|t n| |t]; unfold Wire.encode.
  - exists ("{" ++ Wire.lit "type" ++ ":" ++ Wire.lit "text_delta" ++ ","
            ++ Wire.lit "text" ++ ":" ++ JSON.quote t ++ "}")%string.
    split; [rewrite ?string_app_assoc; reflexivity|].
    now rewrite !one_line_app, one_line_quote.
  - exists ("{" ++ Wire.lit "type" ++ ":" ++ Wire.lit "tool_start" ++ ","
            ++ Wire.lit "tool" ++ ":" ++ JSON.quote t ++ "}")%string.
    split; [rewrite ?string_app_assoc; reflexivity|].
    now rewrite !one_line_app, one_line_quote.
  - exists ("{" ++ Wire.lit "type" ++ ":" ++ Wire.lit "tool_progress" ++ ","
            ++ Wire.lit "tool" ++ ":" ++ JSON.quote t ++ ","
            ++ Wire.lit "elapsed" ++ ":" ++ JSON.number_text n ++ "}")%string.
    split; [rewrite ?string_app_assoc; reflexivity|].
    now rewrite !one_line_app, one_line_quote, one_line_number.
  - exists ("{" ++ Wire.lit "type" ++ ":" ++ Wire.lit "done" ++ "}")%string.
    split; reflexivity.
  - exists ("{" ++ Wire.lit "type" ++ ":" ++ Wire.lit "error" ++ ","
            ++ Wire.lit "message" ++ ":" ++ JSON.quote t ++ "}")%string.
    split; [rewrite ?string_app_assoc; reflexivity|].
    now rewrite !one_line_app, one_line_quote.
Qed.

(** Every chunk of a stream is one server-sent event: the text [data: ],
    a payload, and a blank line, where the payload holds no line feed and
    no carriage return, whatever characters the texts and tool names
    hold. So a chunk is never cut short or split by its content. *)
Theorem chunks_are_single_events (ms : list MessageInput) (m : MessageInput)
    (query : string -> Options -> AgentRun) (clock : nat -> Z) (chunk : string) :
  lastUserMessage ms = Some m ->
  In chunk (queue (served (json_gives (js_array ms)) query clock)) ->
  exists payload,
    chunk = ("data: " ++ payload ++ nl ++ nl)%string
    /\ one_line payload = true.
Proof.
  intros H Hin. rewrite (served_accepts ms m) in Hin by assumption.
  rewrite queue_finished in Hin. cbn [queue accepted app] in Hin.
  apply in_app_iff in Hin. destruct Hin as [Hin|[<-|[]]].
  - apply in_map_iff in Hin. destruct Hin as (e & <- & _). apply encode_framed.
  - unfold last_chunk.
    destruct (raises (query (fullPrompt ms m) query_options)).
    + apply encode_framed.
    + exists "[DONE]". split; reflexivity.
Qed.

Lemma chunks_are_single_events_witness :
  lastUserMessage [hi] = Some hi
  /\ exists payload,
       Wire.encode (Wire.text_delta ("two" ++ nl ++ "lines"))
       = ("data: " ++ payload ++ nl ++ nl)%string
       /\ one_line payload = true.
Proof.
  split; [reflexivity|].
  apply (chunks_are_single_events [hi] hi
           (sample_agent [sample_text ("two" ++ nl ++ "lines")] None) frozen_clock
           (Wire.encode (Wire.text_delta ("two" ++ nl ++ "lines"))) eq_refl).
  vm_compute. left. reflexivity.
Defined.
